(** * Area-learning session core: a shallow embedding of [area_learning_app.cc]

    The development follows
    [area-description-jni-example/app/src/main/jni/area_learning_app.cc].
    Every member function of [AreaLearningApp] that the stated properties
    talk about is translated into a computation over an explicit machine
    state.  A computation returns its value together with the list of
    actions it performed (lock operations, accesses to the two stores,
    calls into the Tango client library, log lines, the JNI up-call), or
    stops with undefined behaviour where the C++ source has none defined
    (constructing a [std::string] from a null or unset pointer, converting
    an out-of-range [double] to [int]). *)

From Stdlib Require Import ZArith List String Ascii Bool Lia.
From Stdlib Require DecimalString.
From Equations Require Import Equations.
Import ListNotations.

Open Scope string_scope.
Open Scope list_scope.
Open Scope Z_scope.

(** ** C++ values *)

(** A local variable declared without an initialiser holds an
    indeterminate value until something writes it. *)
Inductive local (A : Type) : Type :=
| Indeterminate
| Holds (a : A).
Arguments Indeterminate {A}.
Arguments Holds {A} a.

(** A [char*]: the null pointer or the C string it points to. *)
Inductive cptr : Type :=
| nullptr
| Cstr (s : string).

(** What a callee did with an out-parameter: [None] leaves the caller's
    variable as it was, [Some v] stores [v] in it. *)
Definition assign {A : Type} (old : local A) (out : option A) : local A :=
  match out with
  | Some v => Holds v
  | None => old
  end.

(** ** The Tango client API, as far as the source uses it *)

Module Tango.

Definition TANGO_SUCCESS : Z := 0.
Definition TANGO_ERROR : Z := -1.

Inductive TangoEventType : Type :=
| TANGO_EVENT_UNKNOWN
| TANGO_EVENT_GENERAL
| TANGO_EVENT_FISHEYE_CAMERA
| TANGO_EVENT_COLOR_CAMERA
| TANGO_EVENT_IMU
| TANGO_EVENT_FEATURE_TRACKING
| TANGO_EVENT_AREA_LEARNING.

Definition TangoEventType_eqb (a b : TangoEventType) : bool :=
  match a, b with
  | TANGO_EVENT_UNKNOWN, TANGO_EVENT_UNKNOWN
  | TANGO_EVENT_GENERAL, TANGO_EVENT_GENERAL
  | TANGO_EVENT_FISHEYE_CAMERA, TANGO_EVENT_FISHEYE_CAMERA
  | TANGO_EVENT_COLOR_CAMERA, TANGO_EVENT_COLOR_CAMERA
  | TANGO_EVENT_IMU, TANGO_EVENT_IMU
  | TANGO_EVENT_FEATURE_TRACKING, TANGO_EVENT_FEATURE_TRACKING
  | TANGO_EVENT_AREA_LEARNING, TANGO_EVENT_AREA_LEARNING => true
  | _, _ => false
  end.

Inductive TangoCoordinateFrameType : Type :=
| TANGO_COORDINATE_FRAME_GLOBAL_WGS84
| TANGO_COORDINATE_FRAME_AREA_DESCRIPTION
| TANGO_COORDINATE_FRAME_START_OF_SERVICE
| TANGO_COORDINATE_FRAME_PREVIOUS_DEVICE_POSE
| TANGO_COORDINATE_FRAME_DEVICE
| TANGO_COORDINATE_FRAME_IMU
| TANGO_COORDINATE_FRAME_DISPLAY
| TANGO_COORDINATE_FRAME_CAMERA_COLOR
| TANGO_COORDINATE_FRAME_CAMERA_DEPTH
| TANGO_COORDINATE_FRAME_CAMERA_FISHEYE.

Inductive TangoPoseStatusType : Type :=
| TANGO_POSE_INITIALIZING
| TANGO_POSE_VALID
| TANGO_POSE_INVALID
| TANGO_POSE_UNKNOWN.

(** [TangoAreaDescriptionMetadata] and [TangoConfig] are opaque
    pointers handed out by the library. *)
Definition TangoAreaDescriptionMetadata : Type := Z.
Definition TangoConfig : Type := Z.

(** The entry points of the client library.  [W] is the state of the
    service (its persisted area descriptions and whatever else it
    keeps); each entry point sees that state, answers with its return
    code and with what it stored through its out-parameters, and leaves
    a new state. *)
Record Api (W : Type) : Type := {
  TangoService_getConfig : W -> option TangoConfig * W;
  TangoService_saveAreaDescription : W -> Z * option string * W;
  TangoService_getAreaDescriptionMetadata :
    string -> W -> Z * option TangoAreaDescriptionMetadata * W;
  TangoAreaDescriptionMetadata_get :
    local TangoAreaDescriptionMetadata -> string -> W ->
    Z * option cptr * W;
  TangoAreaDescriptionMetadata_set :
    local TangoAreaDescriptionMetadata -> string -> Z -> string -> W ->
    Z * W;
  TangoService_saveAreaDescriptionMetadata :
    string -> local TangoAreaDescriptionMetadata -> W -> Z * W;
  TangoService_getAreaDescriptionUUIDList : W -> Z * option cptr * W;
  TangoService_deleteAreaDescription : string -> W -> Z * W
}.

End Tango.
Import Tango.

Arguments TangoService_getConfig {W}.
Arguments TangoService_saveAreaDescription {W}.
Arguments TangoService_getAreaDescriptionMetadata {W}.
Arguments TangoAreaDescriptionMetadata_get {W}.
Arguments TangoAreaDescriptionMetadata_set {W}.
Arguments TangoService_saveAreaDescriptionMetadata {W}.
Arguments TangoService_getAreaDescriptionUUIDList {W}.
Arguments TangoService_deleteAreaDescription {W}.

(** ** IEEE 754 binary64 arithmetic, as far as the source uses it

    [std::atof(event->event_value) * 100] is a [double] product, and
    passing it to [OnAdfSavingProgressChanged(int)] converts it to [int].
    A [double] is kept as sign, integer significand and binary exponent;
    every operation computes the exact rational result and rounds it to
    nearest, ties to even, into 53 bits of precision with exponents from
    -1074 up, overflowing to infinity. *)

Module Binary64.

Inductive double : Type :=
| NaN
| Inf (neg : bool)
| Fin (neg : bool) (m : Z) (e : Z).   (* (-1)^neg * m * 2^e, 0 <= m *)

Definition zero (neg : bool) : double := Fin neg 0 0.

(** The ratio [n/d] divided by [2^k], again as a ratio. *)
Definition scale2 (n d k : Z) : Z * Z :=
  if 0 <=? k then (n, d * 2 ^ k) else (n * 2 ^ (- k), d).

(** [floor (log2 (n/d))] for positive [n] and [d]. *)
Definition flog2 (n d : Z) : Z :=
  let g := Z.log2 n - Z.log2 d in
  let '(n', d') := scale2 n d g in
  if n' <? d' then g - 1 else g.

(** The integer nearest to [n/d], ties to the even one. *)
Definition rne (n d : Z) : Z :=
  let q := n / d in
  let r := n mod d in
  if 2 * r <? d then q
  else if d <? 2 * r then q + 1
  else if Z.even q then q else q + 1.

Definition round_pos (neg : bool) (n d : Z) : double :=
  let ex := Z.max (flog2 n d - 52) (-1074) in
  let '(n', d') := scale2 n d ex in
  let m := rne n' d' in
  if m =? 0 then zero neg
  else
    let '(m, ex) := if m =? 2 ^ 53 then (2 ^ 52, ex + 1) else (m, ex) in
    if 972 <=? ex then Inf neg else Fin neg m ex.

(** The double nearest to [(-1)^neg * n/d], for [0 <= n] and [0 < d]. *)
Definition round (neg : bool) (n d : Z) : double :=
  if n =? 0 then zero neg else round_pos neg n d.

Definition of_int (z : Z) : double := round (z <? 0) (Z.abs z) 1.

Definition mul (x y : double) : double :=
  match x, y with
  | NaN, _ | _, NaN => NaN
  | Inf s, Inf t => Inf (xorb s t)
  | Inf s, Fin t m _ | Fin s m _, Inf t =>
      if m =? 0 then NaN else Inf (xorb s t)
  | Fin s m1 e1, Fin t m2 e2 =>
      let '(n, d) := scale2 (m1 * m2) 1 (- (e1 + e2)) in
      round (xorb s t) n d
  end.

Definition INT_MIN : Z := - 2 ^ 31.
Definition INT_MAX : Z := 2 ^ 31 - 1.

(** Conversion of a [double] to [int] discards the fractional part;
    the behaviour is undefined ([None]) when the truncated value does
    not fit, which includes the infinities and NaN. *)
Definition to_int (x : double) : option Z :=
  match x with
  | Fin neg m e =>
      let t := if 0 <=? e then m * 2 ^ e else m / 2 ^ (- e) in
      let v := if neg then - t else t in
      if (INT_MIN <=? v) && (v <=? INT_MAX) then Some v else None
  | _ => None
  end.

(** [0.0 <= x <= 1.0]. *)
Definition is_ratio (x : double) : bool :=
  match x with
  | Fin neg m e =>
      ((m =? 0) || negb neg) && (0 <=? m) &&
      (let '(n, d) := scale2 m 1 (- e) in n <=? d)
  | _ => false
  end.

End Binary64.

(** ** The C library functions the source calls *)

Module CLib.
Import Binary64.

Definition code (c : ascii) : Z := Z.of_N (N_of_ascii c).

Definition isspace (c : ascii) : bool :=
  (code c =? 32) || ((9 <=? code c) && (code c <=? 13)).

Definition tolower (c : ascii) : ascii :=
  if (65 <=? code c) && (code c <=? 90)
  then ascii_of_N (Z.to_N (code c + 32)) else c.

Definition digit_value (c : ascii) : option Z :=
  if (48 <=? code c) && (code c <=? 57) then Some (code c - 48) else None.

Definition xdigit_value (c : ascii) : option Z :=
  if (48 <=? code c) && (code c <=? 57) then Some (code c - 48)
  else if (97 <=? code c) && (code c <=? 102) then Some (code c - 87)
  else if (65 <=? code c) && (code c <=? 70) then Some (code c - 55)
  else None.

Fixpoint skip_spaces (s : string) : string :=
  match s with
  | String c r => if isspace c then skip_spaces r else s
  | EmptyString => s
  end.

(** The longest run of digits at the front of [s], folded into [acc];
    the result is the number read, how many digits it has, and what
    follows. *)
Fixpoint digits (value : ascii -> option Z) (base : Z) (s : string)
         (acc count : Z) : Z * Z * string :=
  match s with
  | String c r =>
      match value c with
      | Some v => digits value base r (acc * base + v) (count + 1)
      | None => (acc, count, s)
      end
  | EmptyString => (acc, count, s)
  end.

(** Digits with at most one radix character among them: the digits
    read as one integer, the number of digits, the number of digits
    after the radix character, and what follows. *)
Definition mantissa (value : ascii -> option Z) (base : Z) (s : string)
  : Z * Z * Z * string :=
  let '(m1, n1, r1) := digits value base s 0 0 in
  match r1 with
  | String "." r =>
      let '(m2, n2, r2) := digits value base r m1 0 in
      (m2, n1 + n2, n2, r2)
  | _ => (m1, n1, 0, r1)
  end.

(** The exponent part: the marker letter, an optional sign and at
    least one decimal digit; anything less is no exponent part. *)
Definition exponent (marker : ascii) (s : string) : Z :=
  match s with
  | String c r =>
      if Ascii.eqb (tolower c) marker then
        let '(neg, r') :=
          match r with
          | String "-" r' => (true, r')
          | String "+" r' => (false, r')
          | _ => (false, r)
          end in
        let '(e, n, _) := digits digit_value 10 r' 0 0 in
        if n =? 0 then 0 else if neg then - e else e
      else 0
  | EmptyString => 0
  end.

(** [s] starts with the lower-case word [p], letter case ignored. *)
Fixpoint prefix_nocase (p s : string) : bool :=
  match p, s with
  | EmptyString, _ => true
  | String a p', String b s' =>
      Ascii.eqb a (tolower b) && prefix_nocase p' s'
  | String _ _, EmptyString => false
  end.

(** The subject sequence after white space and sign. *)
Definition strtod_magnitude (neg : bool) (s : string) : double :=
  if prefix_nocase "inf" s then Inf neg
  else if prefix_nocase "nan" s then NaN
  else if prefix_nocase "0x" s then
    let '(m, n, nfrac, rest) :=
      mantissa xdigit_value 16 (substring 2 (length s - 2) s) in
    if n =? 0 then zero neg
    else
      let '(num, den) := scale2 m 1 (- (exponent "p" rest - 4 * nfrac)) in
      round neg num den
  else
    let '(m, n, nfrac, rest) := mantissa digit_value 10 s in
    if n =? 0 then zero false
    else
      let e := exponent "e" rest - nfrac in
      if 0 <=? e then round neg (m * 10 ^ e) 1
      else round neg m (10 ^ (- e)).

(** [strtod(s, nullptr)] in the C locale: leading white space, an
    optional sign, then the longest prefix that reads as a decimal or
    hexadecimal floating constant, an infinity or a NaN; [0.0] when
    there is none. *)
Definition strtod (s : string) : double :=
  match skip_spaces s with
  | String "-" r => strtod_magnitude true r
  | String "+" r => strtod_magnitude false r
  | r => strtod_magnitude false r
  end.

Definition atof (s : string) : double := strtod s.

(** [strcmp(a, b) == 0]. *)
Definition strcmp_eq (a b : string) : bool := String.eqb a b.

Fixpoint is_delim (delim : string) (c : ascii) : bool :=
  match delim with
  | String d r => Ascii.eqb c d || is_delim r c
  | EmptyString => false
  end.

(** [s + strspn(s, delim)]. *)
Fixpoint skip_delims (delim s : string) : string :=
  match s with
  | String c r => if is_delim delim c then skip_delims delim r else s
  | EmptyString => s
  end.

(** The first [strcspn(s, delim)] characters of [s], and the rest of
    [s] from there on. *)
Fixpoint span_token (delim s : string) : string * string :=
  match s with
  | String c r =>
      if is_delim delim c then (EmptyString, s)
      else let '(tok, rest) := span_token delim r in (String c tok, rest)
  | EmptyString => (EmptyString, s)
  end.

(** [strtok_r(str, delim, &saveptr)]: the token found, if any, and the
    new value of [saveptr].  [str] is [None] for a null pointer, which
    continues at [saveptr]. *)
Definition strtok_r (str : option string) (delim saveptr : string)
  : option string * string :=
  let s := match str with Some s => s | None => saveptr end in
  match skip_delims delim s with
  | EmptyString => (None, EmptyString)
  | String c r =>
      let '(tok, rest) := span_token delim (String c r) in
      match rest with
      | EmptyString => (Some tok, EmptyString)
      | String _ rest' => (Some tok, rest')
      end
  end.

End CLib.

Import Binary64 CLib.

(** ** Pose and event records of the client API *)

Record TangoCoordinateFramePair : Type := {
  base : TangoCoordinateFrameType;
  target : TangoCoordinateFrameType
}.

Record TangoPoseData : Type := {
  timestamp : double;
  orientation : list double;
  translation : list double;
  status_code : TangoPoseStatusType;
  frame : TangoCoordinateFramePair
}.

Record TangoEvent : Type := {
  event_timestamp : double;
  type : TangoEventType;
  event_key : string;
  event_value : string
}.

(** ** The two stores

    [PoseData] and [EventData] are classes of the repository whose
    implementation files are not part of [area_learning_app.cc]; the
    application object only calls their member functions. *)

Module PoseData.

Record t : Type := {
  start_service_T_device_pose_ : option TangoPoseData;
  adf_T_device_pose_ : option TangoPoseData;
  adf_T_start_service_pose_ : option TangoPoseData;
  is_relocalized_ : bool
}.

(** Modelled from the spec: the constructor of [PoseData] is missing
    ([area_learning_app.cc] only holds a member of the class).  A fresh
    store has no sample and the relocalization flag is false. *)
Definition empty : t :=
  {| start_service_T_device_pose_ := None;
     adf_T_device_pose_ := None;
     adf_T_start_service_pose_ := None;
     is_relocalized_ := false |}.

Definition is_valid (s : TangoPoseStatusType) : bool :=
  match s with TANGO_POSE_VALID => true | _ => false end.

(** Modelled from the spec: the body of [PoseData::UpdatePose] is
    missing ([area_learning_app.cc] only calls it).  It overwrites the retained sample of the
    relationship named by the pose's (base, target) pair and ignores
    pairs other than the three tracked ones; the relocalization flag
    becomes true the moment an (area description, device) pose carries
    valid status and never reverts within a session. *)
Definition UpdatePose (pose : TangoPoseData) (d : t) : t :=
  match base (frame pose), target (frame pose) with
  | TANGO_COORDINATE_FRAME_START_OF_SERVICE, TANGO_COORDINATE_FRAME_DEVICE =>
      {| start_service_T_device_pose_ := Some pose;
         adf_T_device_pose_ := adf_T_device_pose_ d;
         adf_T_start_service_pose_ := adf_T_start_service_pose_ d;
         is_relocalized_ := is_relocalized_ d |}
  | TANGO_COORDINATE_FRAME_AREA_DESCRIPTION, TANGO_COORDINATE_FRAME_DEVICE =>
      {| start_service_T_device_pose_ := start_service_T_device_pose_ d;
         adf_T_device_pose_ := Some pose;
         adf_T_start_service_pose_ := adf_T_start_service_pose_ d;
         is_relocalized_ :=
           if is_valid (status_code pose) then true else is_relocalized_ d |}
  | TANGO_COORDINATE_FRAME_AREA_DESCRIPTION,
    TANGO_COORDINATE_FRAME_START_OF_SERVICE =>
      {| start_service_T_device_pose_ := start_service_T_device_pose_ d;
         adf_T_device_pose_ := adf_T_device_pose_ d;
         adf_T_start_service_pose_ := Some pose;
         is_relocalized_ := is_relocalized_ d |}
  | _, _ => d
  end.

(** Modelled from the spec: the body of [PoseData::GetCurrentPoseData]
    is missing ([area_learning_app.cc] only calls it).  It returns a value copy of all three
    retained samples. *)
Definition GetCurrentPoseData (d : t)
  : option TangoPoseData * option TangoPoseData * option TangoPoseData :=
  (start_service_T_device_pose_ d, adf_T_device_pose_ d,
   adf_T_start_service_pose_ d).

(** Modelled from the spec: the body of [PoseData::IsRelocalized] is
    missing ([area_learning_app.cc] only calls it).  It returns the derived flag. *)
Definition IsRelocalized (d : t) : bool := is_relocalized_ d.

(** Modelled from the spec: the body of [PoseData::ResetPoseData] is
    missing ([area_learning_app.cc] only calls it).  It clears all samples and the relocalization
    flag. *)
Definition ResetPoseData (d : t) : t := empty.

End PoseData.

Module EventData.

Record t : Type := { tango_event_ : option TangoEvent }.

Definition empty : t := {| tango_event_ := None |}.

(** Modelled from the spec: the body of [EventData::UpdateTangoEvent]
    is missing ([area_learning_app.cc] only calls it).  It overwrites the
    single retained event. *)
Definition UpdateTangoEvent (event : TangoEvent) (d : t) : t :=
  {| tango_event_ := Some event |}.

End EventData.

(** The renderings for display, [PoseData::Get...String] and
    [EventData::GetTangoEventString], are functions of the retained
    sample; their text format is not fixed here. *)
Record Display : Type := {
  pose_string : option TangoPoseData -> string;
  event_string : option TangoEvent -> string
}.

(** ** Machine state and actions *)

Inductive mutex : Type := pose_mutex_ | tango_event_mutex_.

Definition mutex_eqb (a b : mutex) : bool :=
  match a, b with
  | pose_mutex_, pose_mutex_ | tango_event_mutex_, tango_event_mutex_ => true
  | _, _ => false
  end.

(** The member functions of [pose_data_] and [tango_event_data_]. *)
Inductive member : Type :=
| Pose_UpdatePose
| Pose_GetCurrentPoseData
| Pose_IsRelocalized
| Pose_ResetPoseData
| Pose_GetStartServiceTDeviceString
| Pose_GetAdfTDeviceString
| Pose_GetAdfTStartServiceString
| Event_UpdateTangoEvent
| Event_GetTangoEventString.

(** Calls into the client library, with their arguments. *)
Inductive call : Type :=
| getConfig
| saveAreaDescription
| getAreaDescriptionMetadata (uuid : string)
| Metadata_get (metadata : local TangoAreaDescriptionMetadata) (key : string)
| Metadata_set (metadata : local TangoAreaDescriptionMetadata)
               (key : string) (size : Z) (value : string)
| saveAreaDescriptionMetadata
    (uuid : string) (metadata : local TangoAreaDescriptionMetadata)
| getAreaDescriptionUUIDList
| deleteAreaDescription (uuid : string).

Inductive action : Type :=
| Lock (m : mutex)
| Unlock (m : mutex)
| Member (f : member)
| Service (c : call)
| LOGI
| LOGE (ret : option Z)
| GetEnv
| CallVoidMethod (progress : Z)
| SceneRender (relocalized : bool)
| FreeGLContent.

Record AreaLearningApp : Type := {
  pose_data_ : PoseData.t;
  tango_event_data_ : EventData.t
}.

Record machine (W : Type) : Type := {
  app : AreaLearningApp;
  service : W
}.
Arguments app {W}.
Arguments service {W}.

(** How a member function ends: it returns a value, or it runs into
    undefined behaviour; either way with the state reached and the
    actions performed up to there. *)
Inductive result (W A : Type) : Type :=
| Returns (a : A) (m : machine W) (tr : list action)
| Undefined (m : machine W) (tr : list action).
Arguments Returns {W A}.
Arguments Undefined {W A}.

Definition trace {W A : Type} (r : result W A) : list action :=
  match r with Returns _ _ tr | Undefined _ tr => tr end.

Definition final {W A : Type} (r : result W A) : machine W :=
  match r with Returns _ m _ | Undefined m _ => m end.

Definition M (W A : Type) : Type := machine W -> result W A.

Definition ret {W A : Type} (a : A) : M W A := fun m => Returns a m [].

Definition bind {W A B : Type} (c : M W A) (k : A -> M W B) : M W B :=
  fun m =>
    match c m with
    | Returns a m1 tr1 =>
        match k a m1 with
        | Returns b m2 tr2 => Returns b m2 (tr1 ++ tr2)
        | Undefined m2 tr2 => Undefined m2 (tr1 ++ tr2)
        end
    | Undefined m1 tr1 => Undefined m1 tr1
    end.

Definition undefined {W A : Type} : M W A := fun m => Undefined m [].

Definition emit {W : Type} (a : action) : M W unit :=
  fun m => Returns tt m [a].

Declare Scope app_scope.
Delimit Scope app_scope with app.
Notation "x <- c ;; k" := (bind c (fun x => k))
  (at level 61, c at next level, right associativity) : app_scope.
Notation "' p <- c ;; k" := (bind c (fun x => let p := x in k))
  (at level 61, p pattern, c at next level, right associativity) : app_scope.
Notation "c ;; k" := (bind c (fun _ => k))
  (at level 61, right associativity) : app_scope.

(** ** The parsing loop of [GetAdfUuids] *)

Lemma skip_delims_length (delim s : string) :
  (String.length (skip_delims delim s) <= String.length s)%nat.
Proof.
  induction s as [|c r IH]; simpl; [lia|].
  destruct (is_delim delim c); simpl; lia.
Qed.

Lemma span_token_length (delim s : string) :
  (String.length (snd (span_token delim s)) <= String.length s)%nat.
Proof.
  induction s as [|c r IH]; simpl; [lia|].
  destruct (is_delim delim c); simpl; [lia|].
  destruct (span_token delim r); simpl in *; lia.
Qed.

(** A call that finds a token leaves a strictly shorter rest. *)
Lemma strtok_r_shrinks (delim saveptr tok rest : string) :
  strtok_r None delim saveptr = (Some tok, rest) ->
  (String.length rest < String.length saveptr)%nat.
Proof.
  unfold strtok_r.
  pose proof (skip_delims_length delim saveptr) as Hs.
  destruct (skip_delims delim saveptr) as [|c r] eqn:E; [discriminate|].
  pose proof (span_token_length delim (String c r)) as Ht.
  destruct (span_token delim (String c r)) as [t q] eqn:Et.
  assert (q <> String c r) as Hne.
  { simpl in Et. destruct (is_delim delim c) eqn:Ed.
    - exfalso. clear -E Ed.
      induction saveptr as [|a s IH]; simpl in E; [discriminate|].
      destruct (is_delim delim a) eqn:Ea; [auto|].
      injection E as -> ->. congruence.
    - destruct (span_token delim r) as [t' q'] eqn:Er.
      injection Et as <- <-.
      pose proof (span_token_length delim r) as Hr. rewrite Er in Hr.
      simpl in Hr. intros ->. simpl in Hr. lia. }
  simpl in Ht.
  destruct q as [|a q']; intros H; injection H as <- <-; simpl in *.
  - lia.
  - lia.
Qed.

Definition loop_measure (parsing_char : option string) (saved_ptr : string)
  : nat :=
  match parsing_char with
  | Some _ => S (String.length saved_ptr)
  | None => O
  end.

Definition inspect {A : Type} (a : A) : {b : A | a = b} :=
  exist _ a eq_refl.

(** [while (parsing_char != nullptr) { adf_list->push_back(parsing_char);
    parsing_char = strtok_r(nullptr, ",", &saved_ptr); }] *)
Equations? push_tokens (parsing_char : option string) (saved_ptr : string)
  (adf_list : list string) : list string
  by wf (loop_measure parsing_char saved_ptr) lt :=
  push_tokens None _ adf_list := adf_list;
  push_tokens (Some str) saved_ptr adf_list
    with inspect (strtok_r None "," saved_ptr) := {
    | exist _ (next, saved_ptr') E :=
        push_tokens next saved_ptr' (adf_list ++ [str]) }.
Proof.
  destruct next as [tok|]; simpl; [|lia].
  apply strtok_r_shrinks in E. lia.
Qed.

(** ** The member functions of [AreaLearningApp] *)

Section AreaLearningApp.

Context {W : Type} (api : Api W) (display : Display).

Local Open Scope app_scope.

(** A call of a member function of [pose_data_]. *)
Definition pose_call {A : Type} (f : member) (value : PoseData.t -> A)
           (after : PoseData.t -> PoseData.t) : M W A :=
  fun m =>
    Returns (value (pose_data_ (app m)))
            {| app := {| pose_data_ := after (pose_data_ (app m));
                         tango_event_data_ := tango_event_data_ (app m) |};
               service := service m |}
            [Member f].

(** A call of a member function of [tango_event_data_]. *)
Definition event_call {A : Type} (f : member) (value : EventData.t -> A)
           (after : EventData.t -> EventData.t) : M W A :=
  fun m =>
    Returns (value (tango_event_data_ (app m)))
            {| app := {| pose_data_ := pose_data_ (app m);
                         tango_event_data_ :=
                           after (tango_event_data_ (app m)) |};
               service := service m |}
            [Member f].

(** A call into the client library. *)
Definition tango {A : Type} (c : call) (entry : W -> A * W) : M W A :=
  fun m =>
    let '(a, w) := entry (service m) in
    Returns a {| app := app m; service := w |} [Service c].

(** [std::lock_guard<std::mutex> lock(mx);] in front of [body], with the
    guard's scope ending behind it. *)
Definition lock_guard {A : Type} (mx : mutex) (body : M W A) : M W A :=
  emit (Lock mx) ;; x <- body ;; emit (Unlock mx) ;; ret x.

(** [std::string(p)] for a [char*] variable [p]. *)
Definition std_string (p : local cptr) : M W string :=
  match p with
  | Holds (Cstr s) => ret s
  | Holds nullptr | Indeterminate => undefined
  end.

(** [std::string(buf)] for a character array [buf]. *)
Definition std_string_of_array (buf : local string) : M W string :=
  match buf with
  | Holds s => ret s
  | Indeterminate => undefined
  end.

(** [if (ret != TANGO_SUCCESS) { LOGE(..., ret); }] *)
Definition log_unless_success (r : Z) : M W unit :=
  if r =? TANGO_SUCCESS then ret tt else emit (LOGE (Some r)).

Definition onPoseAvailable (pose : TangoPoseData) : M W unit :=
  lock_guard pose_mutex_
    (pose_call Pose_UpdatePose (fun _ => tt) (PoseData.UpdatePose pose)).

Definition OnAdfSavingProgressChanged (progress : Z) : M W unit :=
  emit GetEnv ;; emit (CallVoidMethod progress).

(** The test that guards the progress report. *)
Definition is_save_progress (event : TangoEvent) : bool :=
  TangoEventType_eqb (type event) TANGO_EVENT_AREA_LEARNING &&
  strcmp_eq (event_key event) "AreaDescriptionSaveProgress".

(** [std::atof(event->event_value) * 100], converted to the [int]
    parameter of [OnAdfSavingProgressChanged]. *)
Definition progress_of (event : TangoEvent) : option Z :=
  to_int (mul (atof (event_value event)) (of_int 100)).

Definition onTangoEventAvailable (event : TangoEvent) : M W unit :=
  lock_guard tango_event_mutex_
    (event_call Event_UpdateTangoEvent (fun _ => tt)
                (EventData.UpdateTangoEvent event) ;;
     if is_save_progress event then
       match progress_of event with
       | Some progress => OnAdfSavingProgressChanged progress
       | None => undefined
       end
     else ret tt).

Definition SaveAdf : M W string :=
  let adf_uuid_string := EmptyString in
  relocalized <- pose_call Pose_IsRelocalized PoseData.IsRelocalized id ;;
  if negb relocalized then ret adf_uuid_string
  else
    '(r, out) <- tango saveAreaDescription
                       (TangoService_saveAreaDescription api) ;;
    let uuid := assign Indeterminate out in
    if r =? TANGO_SUCCESS then
      emit LOGI ;; std_string_of_array uuid
    else
      emit (LOGE (Some r)) ;; ret adf_uuid_string.

Definition GetAdfMetadataValue (uuid key : string) : M W string :=
  '(r, out) <- tango (getAreaDescriptionMetadata uuid)
                     (TangoService_getAreaDescriptionMetadata api uuid) ;;
  let metadata := assign Indeterminate out in
  log_unless_success r ;;
  '(r, out) <- tango (Metadata_get metadata key)
                     (TangoAreaDescriptionMetadata_get api metadata key) ;;
  let output := assign Indeterminate out in
  log_unless_success r ;;
  std_string output.

Definition SetAdfMetadataValue (uuid key value : string) : M W unit :=
  '(r, out) <- tango (getAreaDescriptionMetadata uuid)
                     (TangoService_getAreaDescriptionMetadata api uuid) ;;
  let metadata := assign Indeterminate out in
  log_unless_success r ;;
  let size := Z.of_nat (String.length value) in
  r <- tango (Metadata_set metadata key size value)
             (TangoAreaDescriptionMetadata_set api metadata key size value) ;;
  log_unless_success r ;;
  r <- tango (saveAreaDescriptionMetadata uuid metadata)
             (TangoService_saveAreaDescriptionMetadata api uuid metadata) ;;
  log_unless_success r.

Definition GetAllAdfUuids : M W string :=
  tango_config_ <- tango getConfig (TangoService_getConfig api) ;;
  match tango_config_ with
  | None => emit (LOGE None)
  | Some _ => ret tt
  end ;;
  '(r, out) <- tango getAreaDescriptionUUIDList
                     (TangoService_getAreaDescriptionUUIDList api) ;;
  let uuid_list := assign (Holds nullptr) out in
  log_unless_success r ;;
  std_string uuid_list.

Definition DeleteAdf (uuid : string) : M W unit :=
  tango (deleteAreaDescription uuid)
        (TangoService_deleteAreaDescription api uuid) ;;
  ret tt.

Definition Render : M W unit :=
  lock_guard pose_mutex_
    (pose_call Pose_GetCurrentPoseData PoseData.GetCurrentPoseData id) ;;
  relocalized <- pose_call Pose_IsRelocalized PoseData.IsRelocalized id ;;
  emit (SceneRender relocalized).

Definition FreeContent : M W unit :=
  pose_call Pose_ResetPoseData (fun _ => tt) PoseData.ResetPoseData ;;
  emit FreeGLContent.

Definition IsRelocalized : M W bool :=
  lock_guard pose_mutex_
    (pose_call Pose_IsRelocalized PoseData.IsRelocalized id).

Definition GetStartServiceTDeviceString : M W string :=
  lock_guard pose_mutex_
    (pose_call Pose_GetStartServiceTDeviceString
       (fun d => pose_string display (PoseData.start_service_T_device_pose_ d))
       id).

Definition GetAdfTDeviceString : M W string :=
  lock_guard pose_mutex_
    (pose_call Pose_GetAdfTDeviceString
       (fun d => pose_string display (PoseData.adf_T_device_pose_ d)) id).

Definition GetAdfTStartServiceString : M W string :=
  lock_guard pose_mutex_
    (pose_call Pose_GetAdfTStartServiceString
       (fun d => pose_string display (PoseData.adf_T_start_service_pose_ d))
       id).

Definition GetEventString : M W string :=
  lock_guard tango_event_mutex_
    (event_call Event_GetTangoEventString
       (fun d => event_string display (EventData.tango_event_ d)) id).

(** The parsing part of [GetAdfUuids], on the pointer the service
    left in [uuid_list]. *)
Definition parse_uuid_list (uuid_list : cptr) (adf_list : list string)
  : list string :=
  match uuid_list with
  | nullptr => adf_list
  | Cstr EmptyString => adf_list
  | Cstr s =>
      let '(parsing_char, saved_ptr) := strtok_r (Some s) "," EmptyString in
      push_tokens parsing_char saved_ptr adf_list
  end.

Definition GetAdfUuids (adf_list : list string) : M W (list string) :=
  '(r, out) <- tango getAreaDescriptionUUIDList
                     (TangoService_getAreaDescriptionUUIDList api) ;;
  let uuid_list := assign (Holds nullptr) out in
  log_unless_success r ;;
  match uuid_list with
  | Holds p => ret (parse_uuid_list p adf_list)
  | Indeterminate => undefined
  end.

End AreaLearningApp.

(** ** Observations on traces *)

(** The calls into the client library, in the order they were made. *)
Fixpoint calls (tr : list action) : list call :=
  match tr with
  | Service c :: rest => c :: calls rest
  | _ :: rest => calls rest
  | [] => []
  end.

(** The values handed to the progress reporter, in order. *)
Fixpoint reports (tr : list action) : list Z :=
  match tr with
  | CallVoidMethod progress :: rest => progress :: reports rest
  | _ :: rest => reports rest
  | [] => []
  end.

(** The locks held after an action, given those held before it. *)
Fixpoint release (mx : mutex) (held : list mutex) : list mutex :=
  match held with
  | h :: rest => if mutex_eqb mx h then rest else h :: release mx rest
  | [] => []
  end.

Definition step_locks (held : list mutex) (a : action) : list mutex :=
  match a with
  | Lock mx => mx :: held
  | Unlock mx => release mx held
  | _ => held
  end.

Definition holds (mx : mutex) (held : list mutex) : bool :=
  existsb (mutex_eqb mx) held.

(** Every action of the trace is allowed by [policy] under the locks held
    when it happens. *)
Fixpoint respects (policy : list mutex -> action -> bool)
         (held : list mutex) (tr : list action) : bool :=
  match tr with
  | a :: rest => policy held a && respects policy (step_locks held a) rest
  | [] => true
  end.

(** The progress report is made with the event lock released. *)
Definition report_after_release (held : list mutex) (a : action) : bool :=
  match a with
  | CallVoidMethod _ => negb (holds tango_event_mutex_ held)
  | _ => true
  end.

(** The progress report is made with the event lock held. *)
Definition report_under_lock (held : list mutex) (a : action) : bool :=
  match a with
  | CallVoidMethod _ => holds tango_event_mutex_ held
  | _ => true
  end.

(** The lock that the writer of a store takes: [onPoseAvailable] takes
    [pose_mutex_], [onTangoEventAvailable] takes [tango_event_mutex_]. *)
Definition writer_lock (f : member) : mutex :=
  match f with
  | Event_UpdateTangoEvent | Event_GetTangoEventString => tango_event_mutex_
  | _ => pose_mutex_
  end.

Definition is_read (f : member) : bool :=
  match f with
  | Pose_GetCurrentPoseData | Pose_IsRelocalized
  | Pose_GetStartServiceTDeviceString | Pose_GetAdfTDeviceString
  | Pose_GetAdfTStartServiceString | Event_GetTangoEventString => true
  | _ => false
  end.

(** Reads of a store happen under the lock of its writer, and a lock is
    held for nothing but accesses to the stores. *)
Definition read_discipline (held : list mutex) (a : action) : bool :=
  match a with
  | Member f => if is_read f then holds (writer_lock f) held else true
  | Lock _ | Unlock _ => true
  | _ => match held with [] => true | _ :: _ => false end
  end.

(** ** Scripted services

    A service without state whose every entry point answers the same way
    each time it is called. *)

Module Scripted.

Record script : Type := {
  config : option TangoConfig;
  save : Z * option string;
  fetch : Z * option TangoAreaDescriptionMetadata;
  get : Z * option cptr;
  set : Z;
  persist : Z;
  uuid_list : Z * option cptr;
  delete : Z
}.

Definition api (s : script) : Api unit :=
  {| TangoService_getConfig := fun w => (config s, w);
     TangoService_saveAreaDescription := fun w => (save s, w);
     TangoService_getAreaDescriptionMetadata := fun _ w => (fetch s, w);
     TangoAreaDescriptionMetadata_get := fun _ _ w => (get s, w);
     TangoAreaDescriptionMetadata_set := fun _ _ _ _ w => (set s, w);
     TangoService_saveAreaDescriptionMetadata := fun _ _ w => (persist s, w);
     TangoService_getAreaDescriptionUUIDList := fun w => (uuid_list s, w);
     TangoService_deleteAreaDescription := fun _ w => (delete s, w) |}.

(** Every request fails and no out-parameter is written. *)
Definition rejecting : script :=
  {| config := None;
     save := (TANGO_ERROR, None);
     fetch := (TANGO_ERROR, None);
     get := (TANGO_ERROR, None);
     set := TANGO_ERROR;
     persist := TANGO_ERROR;
     uuid_list := (TANGO_ERROR, None);
     delete := TANGO_ERROR |}.

(** Every request succeeds: the save issues [uuid], the catalogue is
    [blob], and the metadata value read is [value]. *)
Definition accepting (uuid blob value : string) : script :=
  {| config := Some 1;
     save := (TANGO_SUCCESS, Some uuid);
     fetch := (TANGO_SUCCESS, Some 1);
     get := (TANGO_SUCCESS, Some (Cstr value));
     set := TANGO_SUCCESS;
     persist := TANGO_SUCCESS;
     uuid_list := (TANGO_SUCCESS, Some (Cstr blob));
     delete := TANGO_SUCCESS |}.

(** The area description is known, the key is not: the read of the key
    fails and leaves its out-parameter alone. *)
Definition missing_key : script :=
  {| config := Some 1;
     save := (TANGO_SUCCESS, Some EmptyString);
     fetch := (TANGO_SUCCESS, Some 1);
     get := (TANGO_ERROR, None);
     set := TANGO_SUCCESS;
     persist := TANGO_SUCCESS;
     uuid_list := (TANGO_SUCCESS, Some (Cstr EmptyString));
     delete := TANGO_SUCCESS |}.

(** The machine of a fresh application object, and the same after a
    valid (area description, device) pose has arrived. *)
Definition fresh : machine unit :=
  {| app := {| pose_data_ := PoseData.empty;
               tango_event_data_ := EventData.empty |};
     service := tt |}.

Definition adf_T_device (status : TangoPoseStatusType) : TangoPoseData :=
  {| timestamp := zero false;
     orientation := [];
     translation := [];
     status_code := status;
     frame := {| base := TANGO_COORDINATE_FRAME_AREA_DESCRIPTION;
                 target := TANGO_COORDINATE_FRAME_DEVICE |} |}.

Definition relocalized : machine unit :=
  {| app := {| pose_data_ :=
                 PoseData.UpdatePose (adf_T_device TANGO_POSE_VALID)
                                     PoseData.empty;
               tango_event_data_ := EventData.empty |};
     service := tt |}.

Definition event (ty : TangoEventType) (key value : string) : TangoEvent :=
  {| event_timestamp := zero false;
     type := ty;
     event_key := key;
     event_value := value |}.

End Scripted.

(** ** The listing, as the specification words it

    The blob is cut at every comma, the pieces are kept in blob order,
    and the empty pieces are dropped. *)

Fixpoint split_commas (blob : string) : list string :=
  match blob with
  | EmptyString => [EmptyString]
  | String c rest =>
      if Ascii.eqb c "," then EmptyString :: split_commas rest
      else
        match split_commas rest with
        | piece :: pieces => String c piece :: pieces
        | [] => [String c EmptyString]
        end
  end.

Definition nonempty (piece : string) : bool :=
  match piece with
  | EmptyString => false
  | String _ _ => true
  end.

Definition tokens_of_blob (blob : string) : list string :=
  filter nonempty (split_commas blob).

(** ** Machines reached by the callbacks *)

(** The machine after [tango_event_data_.UpdateTangoEvent(event)]. *)
Definition with_event {W : Type} (event : TangoEvent) (m : machine W)
  : machine W :=
  {| app := {| pose_data_ := pose_data_ (app m);
               tango_event_data_ :=
                 EventData.UpdateTangoEvent event (tango_event_data_ (app m)) |};
     service := service m |}.

(** The machine after [pose_data_.UpdatePose(pose)]. *)
Definition with_pose {W : Type} (pose : TangoPoseData) (m : machine W)
  : machine W :=
  {| app := {| pose_data_ := PoseData.UpdatePose pose (pose_data_ (app m));
               tango_event_data_ := tango_event_data_ (app m) |};
     service := service m |}.

(** The machine after [pose_data_.ResetPoseData()]. *)
Definition with_reset {W : Type} (m : machine W) : machine W :=
  {| app := {| pose_data_ := PoseData.ResetPoseData (pose_data_ (app m));
               tango_event_data_ := tango_event_data_ (app m) |};
     service := service m |}.

(** The machine after the service has delivered the poses of [poses],
    one [onPoseAvailable] callback each, in order. *)
Definition deliver {W : Type} (poses : list TangoPoseData) (m : machine W)
  : machine W :=
  fold_left (fun m pose => final (onPoseAvailable pose m)) poses m.

(** A valid pose of the device in the area-description frame. *)
Definition relocalizing (pose : TangoPoseData) : bool :=
  match base (frame pose), target (frame pose), status_code pose with
  | TANGO_COORDINATE_FRAME_AREA_DESCRIPTION, TANGO_COORDINATE_FRAME_DEVICE,
    TANGO_POSE_VALID => true
  | _, _, _ => false
  end.

(** The value of the relocalization flag in a machine. *)
Definition relocalized {W : Type} (m : machine W) : bool :=
  PoseData.IsRelocalized (pose_data_ (app m)).

(** A member function that leaves the relocalization flag as it found
    it, however it ends. *)
Definition keeps_flag {W A : Type} (c : M W A) : Prop :=
  forall m : machine W, relocalized (final (c m)) = relocalized m.

(** Every action of [onTangoEventAvailable] other than taking and
    releasing [tango_event_mutex_] happens while that lock is held; the
    lock is taken only when it is free and released only when held, and
    no other lock is touched. *)
Definition under_event_lock (held : list mutex) (a : action) : bool :=
  match a with
  | Lock mx =>
      mutex_eqb mx tango_event_mutex_ && negb (holds tango_event_mutex_ held)
  | Unlock mx =>
      mutex_eqb mx tango_event_mutex_ && holds tango_event_mutex_ held
  | _ => holds tango_event_mutex_ held
  end.

(** ** UUID blobs

    What a well-formed UUID token is for the listing, and the blob that a
    list of tokens makes. *)

Fixpoint has_comma (s : string) : bool :=
  match s with
  | String c rest => Ascii.eqb c "," || has_comma rest
  | EmptyString => false
  end.

(** Not empty and without a comma. *)
Definition is_token (s : string) : bool := nonempty s && negb (has_comma s).

(** The tokens with one comma between neighbours. *)
Fixpoint join_commas (uuids : list string) : string :=
  match uuids with
  | [] => EmptyString
  | [u] => u
  | u :: rest => (u ++ String "," (join_commas rest))%string
  end.

(** ** Lock order

    [std::mutex] is not recursive, and the two mutexes are never meant to
    be held together. *)

(** A lock is taken only while none is held, and it is released by the
    one that holds it. *)
Definition lock_order (held : list mutex) (a : action) : bool :=
  match a with
  | Lock _ => match held with [] => true | _ :: _ => false end
  | Unlock mx =>
      match held with
      | [h] => mutex_eqb mx h
      | _ => false
      end
  | _ => true
  end.

(** The locks held at the end of a trace that starts with none held. *)
Definition locks_after (tr : list action) : list mutex :=
  fold_left step_locks tr [].

Definition is_lock_action (a : action) : bool :=
  match a with
  | Lock _ | Unlock _ => true
  | _ => false
  end.

(** A trace without lock operations. *)
Definition lock_free (tr : list action) : bool :=
  forallb (fun a => negb (is_lock_action a)) tr.

(** A member function that takes no lock and leaves the members of the
    application object as they were, however it ends. *)
Definition bypasses_stores {W A : Type} (c : M W A) : Prop :=
  forall m : machine W,
    lock_free (trace (c m)) = true /\ app (final (c m)) = app m.

(** The calls a host or the service can make on the application
    object. *)
Inductive request : Type :=
| Call_onPoseAvailable (pose : TangoPoseData)
| Call_onTangoEventAvailable (event : TangoEvent)
| Call_SaveAdf
| Call_GetAdfMetadataValue (uuid key : string)
| Call_SetAdfMetadataValue (uuid key value : string)
| Call_GetAllAdfUuids
| Call_DeleteAdf (uuid : string)
| Call_Render
| Call_FreeContent
| Call_IsRelocalized
| Call_GetStartServiceTDeviceString
| Call_GetAdfTDeviceString
| Call_GetAdfTStartServiceString
| Call_GetEventString
| Call_GetAdfUuids (adf_list : list string).

(** What a call did, with its return value left out. *)
Record run (W : Type) : Type := {
  actions : list action;
  returned : bool;
  after : machine W
}.
Arguments actions {W}.
Arguments returned {W}.
Arguments after {W}.

Definition observe {W A : Type} (r : result W A) : run W :=
  match r with
  | Returns _ m tr => {| actions := tr; returned := true; after := m |}
  | Undefined m tr => {| actions := tr; returned := false; after := m |}
  end.

Definition serve {W : Type} (api : Api W) (display : Display)
           (req : request) (m : machine W) : run W :=
  match req with
  | Call_onPoseAvailable pose => observe (onPoseAvailable pose m)
  | Call_onTangoEventAvailable event => observe (onTangoEventAvailable event m)
  | Call_SaveAdf => observe (SaveAdf api m)
  | Call_GetAdfMetadataValue uuid key =>
      observe (GetAdfMetadataValue api uuid key m)
  | Call_SetAdfMetadataValue uuid key value =>
      observe (SetAdfMetadataValue api uuid key value m)
  | Call_GetAllAdfUuids => observe (GetAllAdfUuids api m)
  | Call_DeleteAdf uuid => observe (DeleteAdf api uuid m)
  | Call_Render => observe (Render m)
  | Call_FreeContent => observe (FreeContent m)
  | Call_IsRelocalized => observe (IsRelocalized m)
  | Call_GetStartServiceTDeviceString =>
      observe (GetStartServiceTDeviceString display m)
  | Call_GetAdfTDeviceString => observe (GetAdfTDeviceString display m)
  | Call_GetAdfTStartServiceString =>
      observe (GetAdfTStartServiceString display m)
  | Call_GetEventString => observe (GetEventString display m)
  | Call_GetAdfUuids adf_list => observe (GetAdfUuids api adf_list m)
  end.

(** ** Logs and progress values *)

(** The return codes that were logged as errors, in order. *)
Fixpoint logged (tr : list action) : list (option Z) :=
  match tr with
  | LOGE r :: rest => r :: logged rest
  | _ :: rest => logged rest
  | [] => []
  end.

Definition failed (r : Z) : bool := negb (r =? TANGO_SUCCESS).

(** [atof] takes a character of this kind at the front of a string as
    the possible start of a number: white space, a sign, a digit, the
    radix character, or the first letter of an infinity or a NaN. *)
Definition starts_number (c : ascii) : bool :=
  isspace c
  || Ascii.eqb c "+" || Ascii.eqb c "-" || Ascii.eqb c "."
  || match digit_value c with Some _ => true | None => false end
  || Ascii.eqb (tolower c) "i" || Ascii.eqb (tolower c) "n".

(** One hundred times the magnitude of a finite double, as an exact
    ratio. *)
Definition hundredfold (x : double) : Z * Z :=
  match x with
  | Fin _ m e => scale2 (100 * m) 1 (- e)
  | _ => (0, 1)
  end.

Definition ratio_floor (q : Z * Z) : Z := fst q / snd q.
Definition ratio_ceil (q : Z * Z) : Z := - ((- fst q) / snd q).

(** A string that [atof] takes for no number at all: empty, or starting
    with a character that cannot start one. *)
Definition not_a_number (s : string) : bool :=
  match s with
  | EmptyString => true
  | String c _ => negb (starts_number c)
  end.

(** A scripted service whose fetch and read report failure although the
    read stores a pointer. *)
Definition wrote_despite_failure : Scripted.script :=
  {| Scripted.config := Some 1;
     Scripted.save := (TANGO_SUCCESS, Some EmptyString);
     Scripted.fetch := (TANGO_ERROR, None);
     Scripted.get := (TANGO_ERROR, Some (Cstr "den"));
     Scripted.set := TANGO_SUCCESS;
     Scripted.persist := TANGO_SUCCESS;
     Scripted.uuid_list := (TANGO_SUCCESS, Some (Cstr EmptyString));
     Scripted.delete := TANGO_SUCCESS |}.

(** ** Configuration and connection

    [TangoSetupConfig], [TangoConnectCallbacks], [TangoConnect],
    [TangoDisconnect], [TangoResetMotionTracking],
    [GetTangoServiceVersion] and [GetVersionString] work on three more
    members of the application object and on more entry points of the
    client library. *)

Definition kVersionStringLength : Z := 128.

(** The further entry points.  A [TangoConfig] argument is [None] for a
    null handle; [TangoConfig_getString] answers with what it wrote into
    the caller's buffer, if anything. *)
Record ConfigApi (W : Type) : Type := {
  TangoConfig_setBool : option TangoConfig -> string -> bool -> W -> Z * W;
  TangoConfig_setString :
    option TangoConfig -> string -> string -> W -> Z * W;
  TangoConfig_getString :
    option TangoConfig -> string -> Z -> W -> Z * option string * W;
  TangoConfig_free : option TangoConfig -> W -> W;
  TangoService_connectOnPoseAvailable :
    Z -> list TangoCoordinateFramePair -> W -> Z * W;
  TangoService_connectOnTangoEvent : W -> Z * W;
  TangoService_connect : option TangoConfig -> W -> Z * W;
  TangoService_disconnect : W -> W;
  TangoService_resetMotionTracking : W -> W
}.
Arguments TangoConfig_setBool {W}.
Arguments TangoConfig_setString {W}.
Arguments TangoConfig_getString {W}.
Arguments TangoConfig_free {W}.
Arguments TangoService_connectOnPoseAvailable {W}.
Arguments TangoService_connectOnTangoEvent {W}.
Arguments TangoService_connect {W}.
Arguments TangoService_disconnect {W}.
Arguments TangoService_resetMotionTracking {W}.

Inductive config_call : Type :=
| setBool (config : option TangoConfig) (key : string) (value : bool)
| setString (config : option TangoConfig) (key value : string)
| getString (config : option TangoConfig) (key : string) (size : Z)
| free (config : option TangoConfig)
| connectOnPoseAvailable (count : Z) (pairs : list TangoCoordinateFramePair)
| connectOnTangoEvent
| connect (config : option TangoConfig)
| disconnect
| resetMotionTracking.

(** What a configuration function does: an action of the kind the other
    member functions perform, or one of the further calls. *)
Inductive step : Type :=
| Core (a : action)
| Config (c : config_call).

(** The application object with its configuration members. *)
Record session (W : Type) : Type := {
  core : machine W;
  tango_config_ : option TangoConfig;
  loaded_adf_string_ : string;
  tango_core_version_string_ : string
}.
Arguments core {W}.
Arguments tango_config_ {W}.
Arguments loaded_adf_string_ {W}.
Arguments tango_core_version_string_ {W}.

Inductive outcome (W A : Type) : Type :=
| Done (a : A) (s : session W) (tr : list step)
| Stuck (s : session W) (tr : list step).
Arguments Done {W A}.
Arguments Stuck {W A}.

Definition steps {W A : Type} (o : outcome W A) : list step :=
  match o with Done _ _ tr | Stuck _ tr => tr end.

Definition reached {W A : Type} (o : outcome W A) : session W :=
  match o with Done _ s _ | Stuck s _ => s end.

Definition Setup (W A : Type) : Type := session W -> outcome W A.

Definition sret {W A : Type} (a : A) : Setup W A := fun s => Done a s [].

Definition sbind {W A B : Type} (c : Setup W A) (k : A -> Setup W B)
  : Setup W B :=
  fun s =>
    match c s with
    | Done a s1 tr1 =>
        match k a s1 with
        | Done b s2 tr2 => Done b s2 (tr1 ++ tr2)
        | Stuck s2 tr2 => Stuck s2 (tr1 ++ tr2)
        end
    | Stuck s1 tr1 => Stuck s1 tr1
    end.

Definition stuck {W A : Type} : Setup W A := fun s => Stuck s [].

Declare Scope setup_scope.
Delimit Scope setup_scope with setup.
Notation "x <- c ;; k" := (sbind c (fun x => k))
  (at level 61, c at next level, right associativity) : setup_scope.
Notation "' p <- c ;; k" := (sbind c (fun x => let p := x in k))
  (at level 61, p pattern, c at next level, right associativity)
  : setup_scope.
Notation "c ;; k" := (sbind c (fun _ => k))
  (at level 61, right associativity) : setup_scope.

(** The calls to the library that a trace holds, in order. *)
Fixpoint config_calls (tr : list step) : list config_call :=
  match tr with
  | Config c :: rest => c :: config_calls rest
  | _ :: rest => config_calls rest
  | [] => []
  end.

Fixpoint core_actions (tr : list step) : list action :=
  match tr with
  | Core a :: rest => a :: core_actions rest
  | _ :: rest => core_actions rest
  | [] => []
  end.

Definition is_setString (c : config_call) : bool :=
  match c with setString _ _ _ => true | _ => false end.

(** [std::ostringstream << n] for a [size_t]. *)
Definition decimal (n : nat) : string :=
  DecimalString.NilEmpty.string_of_uint (Nat.to_uint n).

Section Setup.

Context {W : Type} (api : Api W) (capi : ConfigApi W).

Local Open Scope setup_scope.

(** A member function of the other kind, run on the same object. *)
Definition run_core {A : Type} (c : M W A) : Setup W A :=
  fun s =>
    let keep m :=
      {| core := m;
         tango_config_ := tango_config_ s;
         loaded_adf_string_ := loaded_adf_string_ s;
         tango_core_version_string_ := tango_core_version_string_ s |} in
    match c (core s) with
    | Returns a m tr => Done a (keep m) (map Core tr)
    | Undefined m tr => Stuck (keep m) (map Core tr)
    end.

(** One of the further calls into the client library. *)
Definition config {A : Type} (c : config_call) (entry : W -> A * W)
  : Setup W A :=
  fun s =>
    let '(a, w) := entry (service (core s)) in
    Done a
         {| core := {| app := app (core s); service := w |};
            tango_config_ := tango_config_ s;
            loaded_adf_string_ := loaded_adf_string_ s;
            tango_core_version_string_ := tango_core_version_string_ s |}
         [Config c].

Definition log (a : action) : Setup W unit := fun s => Done tt s [Core a].

Definition get_tango_config : Setup W (option TangoConfig) :=
  fun s => Done (tango_config_ s) s [].

Definition set_tango_config (c : option TangoConfig) : Setup W unit :=
  fun s =>
    Done tt
         {| core := core s;
            tango_config_ := c;
            loaded_adf_string_ := loaded_adf_string_ s;
            tango_core_version_string_ := tango_core_version_string_ s |}
         [].

Definition set_loaded_adf_string (v : string) : Setup W unit :=
  fun s =>
    Done tt
         {| core := core s;
            tango_config_ := tango_config_ s;
            loaded_adf_string_ := v;
            tango_core_version_string_ := tango_core_version_string_ s |}
         [].

Definition set_tango_core_version_string (v : string) : Setup W unit :=
  fun s =>
    Done tt
         {| core := core s;
            tango_config_ := tango_config_ s;
            loaded_adf_string_ := loaded_adf_string_ s;
            tango_core_version_string_ := v |}
         [].

(** [if (ret != TANGO_SUCCESS) { LOGE(..., ret); }] *)
Definition log_failure (r : Z) : Setup W unit :=
  if r =? TANGO_SUCCESS then sret tt else log (LOGE (Some r)).

Definition GetTangoServiceVersion : Setup W string :=
  tango_config <- get_tango_config ;;
  '(r, out) <- config (getString tango_config "tango_service_library_version"
                                 kVersionStringLength)
                      (TangoConfig_getString
                         capi tango_config "tango_service_library_version"
                         kVersionStringLength) ;;
  let version_buffer := assign Indeterminate out in
  log_failure r ;;
  match version_buffer with
  | Holds s => sret s
  | Indeterminate => stuck
  end.

(** The body of [if (is_loading_adf) { ... }], which may change [ret]. *)
Definition load_most_recent (ret0 : Z) : Setup W Z :=
  adf_list <- run_core (GetAdfUuids api []) ;;
  match adf_list with
  | [] => sret ret0
  | _ :: _ =>
      let adf_uuid := last adf_list EmptyString in
      set_loaded_adf_string
        ("Number of ADFs:" ++ decimal (List.length adf_list)
           ++ ", Loaded ADF: " ++ adf_uuid)%string ;;
      tango_config <- get_tango_config ;;
      r <- config (setString tango_config "config_load_area_description_UUID"
                             adf_uuid)
                  (TangoConfig_setString
                     capi tango_config "config_load_area_description_UUID"
                     adf_uuid) ;;
      log_failure r ;;
      sret r
  end.

Definition TangoSetupConfig (is_area_learning_enabled is_loading_adf : bool)
  : Setup W Z :=
  tango_config <- run_core (tango getConfig (TangoService_getConfig api)) ;;
  set_tango_config tango_config ;;
  match tango_config with
  | None => log (LOGE None) ;; sret TANGO_ERROR
  | Some _ =>
      r <- config (setBool tango_config "config_enable_learning_mode"
                           is_area_learning_enabled)
                  (TangoConfig_setBool
                     capi tango_config "config_enable_learning_mode"
                     is_area_learning_enabled) ;;
      if negb (r =? TANGO_SUCCESS) then
        log (LOGE (Some r)) ;; sret r
      else
        r <- (if is_loading_adf then load_most_recent r else sret r) ;;
        version <- GetTangoServiceVersion ;;
        set_tango_core_version_string version ;;
        sret r
  end.

(** The frame pairs for which poses are requested. *)
Definition pairs : list TangoCoordinateFramePair :=
  [ {| base := TANGO_COORDINATE_FRAME_START_OF_SERVICE;
       target := TANGO_COORDINATE_FRAME_DEVICE |};
    {| base := TANGO_COORDINATE_FRAME_AREA_DESCRIPTION;
       target := TANGO_COORDINATE_FRAME_DEVICE |};
    {| base := TANGO_COORDINATE_FRAME_AREA_DESCRIPTION;
       target := TANGO_COORDINATE_FRAME_START_OF_SERVICE |} ].

Definition TangoConnectCallbacks : Setup W Z :=
  r <- config (connectOnPoseAvailable 3 pairs)
              (TangoService_connectOnPoseAvailable capi 3 pairs) ;;
  if negb (r =? TANGO_SUCCESS) then
    log (LOGE (Some r)) ;; sret r
  else
    r <- config connectOnTangoEvent
                (TangoService_connectOnTangoEvent capi) ;;
    if negb (r =? TANGO_SUCCESS) then
      log (LOGE (Some r)) ;; sret r
    else sret r.

Definition TangoConnect : Setup W bool :=
  tango_config <- get_tango_config ;;
  r <- config (connect tango_config)
              (TangoService_connect capi tango_config) ;;
  let is_connected := r =? TANGO_SUCCESS in
  (if negb is_connected then log (LOGE (Some r)) else sret tt) ;;
  sret is_connected.

Definition TangoDisconnect : Setup W unit :=
  tango_config <- get_tango_config ;;
  config (free tango_config)
         (fun w => (tt, TangoConfig_free capi tango_config w)) ;;
  set_tango_config None ;;
  config disconnect (fun w => (tt, TangoService_disconnect capi w)).

Definition TangoResetMotionTracking : Setup W unit :=
  config resetMotionTracking
         (fun w => (tt, TangoService_resetMotionTracking capi w)).

Definition GetVersionString : Setup W string :=
  fun s => Done (tango_core_version_string_ s) s [].

End Setup.

(** A scripted library for the further entry points. *)
Module ScriptedConfig.

Record script : Type := {
  set_bool : Z;
  set_string : Z;
  get_string : Z * option string;
  connect_pose : Z;
  connect_event : Z;
  connect_service : Z
}.

Definition capi (s : script) : ConfigApi unit :=
  {| TangoConfig_setBool := fun _ _ _ w => (set_bool s, w);
     TangoConfig_setString := fun _ _ _ w => (set_string s, w);
     TangoConfig_getString := fun _ _ _ w => (get_string s, w);
     TangoConfig_free := fun _ w => w;
     TangoService_connectOnPoseAvailable := fun _ _ w => (connect_pose s, w);
     TangoService_connectOnTangoEvent := fun w => (connect_event s, w);
     TangoService_connect := fun _ w => (connect_service s, w);
     TangoService_disconnect := fun w => w;
     TangoService_resetMotionTracking := fun w => w |}.

Definition accepting (version : string) : script :=
  {| set_bool := TANGO_SUCCESS;
     set_string := TANGO_SUCCESS;
     get_string := (TANGO_SUCCESS, Some version);
     connect_pose := TANGO_SUCCESS;
     connect_event := TANGO_SUCCESS;
     connect_service := TANGO_SUCCESS |}.

Definition rejecting : script :=
  {| set_bool := TANGO_ERROR;
     set_string := TANGO_ERROR;
     get_string := (TANGO_ERROR, None);
     connect_pose := TANGO_ERROR;
     connect_event := TANGO_ERROR;
     connect_service := TANGO_ERROR |}.

(** The object as its constructor leaves the two strings. *)
Definition fresh : session unit :=
  {| core := Scripted.fresh;
     tango_config_ := None;
     loaded_adf_string_ := "Loaded ADF: N/A";
     tango_core_version_string_ := "N/A" |}.

End ScriptedConfig.

(** *** Sessions reached by the configuration functions *)

(** The session with another service state. *)
Definition at_service {W : Type} (s : session W) (w : W) : session W :=
  {| core := {| app := app (core s); service := w |};
     tango_config_ := tango_config_ s;
     loaded_adf_string_ := loaded_adf_string_ s;
     tango_core_version_string_ := tango_core_version_string_ s |}.

Definition with_config {W : Type} (s : session W) (c : option TangoConfig) : session W :=
  {| core := core s;
     tango_config_ := c;
     loaded_adf_string_ := loaded_adf_string_ s;
     tango_core_version_string_ := tango_core_version_string_ s |}.

Definition with_loaded {W : Type} (s : session W) (v : string) : session W :=
  {| core := core s;
     tango_config_ := tango_config_ s;
     loaded_adf_string_ := v;
     tango_core_version_string_ := tango_core_version_string_ s |}.

Definition with_version {W : Type} (s : session W) (v : string) : session W :=
  {| core := core s;
     tango_config_ := tango_config_ s;
     loaded_adf_string_ := loaded_adf_string_ s;
     tango_core_version_string_ := v |}.

Definition log_of (r : Z) : list step :=
  if r =? TANGO_SUCCESS then [] else [Core (LOGE (Some r))].

(** A scripted library whose version query reports failure although it
    fills the buffer. *)
Definition version_despite_failure : ScriptedConfig.script :=
  {| ScriptedConfig.set_bool := TANGO_SUCCESS;
     ScriptedConfig.set_string := TANGO_SUCCESS;
     ScriptedConfig.get_string := (TANGO_ERROR, Some "1.0");
     ScriptedConfig.connect_pose := TANGO_SUCCESS;
     ScriptedConfig.connect_event := TANGO_SUCCESS;
     ScriptedConfig.connect_service := TANGO_SUCCESS |}.

(** ** Sample evaluations *)

(** [atof] yields the double nearest to the decimal it reads. *)
Example atof_0_37 : atof "0.37" = Fin false 6665327448508334 (-54).
Proof. reflexivity. Qed.

Example atof_0_1 : atof "0.1" = Fin false 7205759403792794 (-56).
Proof. reflexivity. Qed.

Example atof_hex : atof " -0x1.8p1" = Fin true 6755399441055744 (-51).
Proof. reflexivity. Qed.

Example atof_no_number : atof "oops" = zero false.
Proof. reflexivity. Qed.

Example atof_overflow : atof "1.7976931348623159e308" = Inf false.
Proof. vm_compute. reflexivity. Qed.

(** The product with 100 is rounded before it is truncated. *)
Example percent_0_29 : to_int (mul (atof "0.29") (of_int 100)) = Some 28.
Proof. reflexivity. Qed.

Example percent_0_07 : to_int (mul (atof "0.07") (of_int 100)) = Some 7.
Proof. reflexivity. Qed.

Example percent_1 : to_int (mul (atof "1") (of_int 100)) = Some 100.
Proof. reflexivity. Qed.

Example percent_nan : to_int (mul (atof "nan") (of_int 100)) = None.
Proof. reflexivity. Qed.

(** [strtok_r] skips every run of delimiters. *)
Example strtok_r_first :
  strtok_r (Some ",,a,b") "," EmptyString = (Some "a", "b").
Proof. reflexivity. Qed.

Example strtok_r_end : strtok_r None "," ",," = (None, EmptyString).
Proof. reflexivity. Qed.

(** ** Save *)

Section Save.

Context {W : Type} (api : Api W).

Lemma SaveAdf_not_relocalized (m : machine W) :
  PoseData.IsRelocalized (pose_data_ (app m)) = false ->
  SaveAdf api m = Returns EmptyString m [Member Pose_IsRelocalized].
Proof.
  intros H. unfold SaveAdf, bind, pose_call, ret, id.
  rewrite H. simpl. destruct m as [[p e] w]. reflexivity.
Qed.

Lemma SaveAdf_relocalized (m : machine W) :
  PoseData.IsRelocalized (pose_data_ (app m)) = true ->
  SaveAdf api m =
  let '(r, out, w) := TangoService_saveAreaDescription api (service m) in
  let m' := {| app := app m; service := w |} in
  let before := [Member Pose_IsRelocalized; Service saveAreaDescription] in
  if r =? TANGO_SUCCESS then
    match out with
    | Some uuid => Returns uuid m' (before ++ [LOGI])
    | None => Undefined m' (before ++ [LOGI])
    end
  else Returns EmptyString m' (before ++ [LOGE (Some r)]).
Proof.
  intros H. unfold SaveAdf, bind, pose_call, tango, ret, id.
  rewrite H. simpl. destruct m as [[p e] w]. simpl.
  destruct (TangoService_saveAreaDescription api w) as [[r out] w'].
  simpl. destruct (r =? TANGO_SUCCESS); simpl; [|reflexivity].
  destruct out; reflexivity.
Qed.

End Save.

Section SaveAdfResults.

Context {W : Type} (api : Api W).

(** C1.  In a state where the relocalization flag is false, [SaveAdf]
    returns its failure result (the empty string) at once: the machine
    is unchanged and no call into the service is made.  In a state
    where the flag is true it calls the save primitive exactly once and
    returns the UUID the service issued when the call succeeds, and the
    failure result when the service rejects the save. *)
Theorem SaveAdf_precondition (m : machine W) :
  (PoseData.IsRelocalized (pose_data_ (app m)) = false ->
     SaveAdf api m = Returns EmptyString m [Member Pose_IsRelocalized] /\
     calls (trace (SaveAdf api m)) = []) /\
  (PoseData.IsRelocalized (pose_data_ (app m)) = true ->
     calls (trace (SaveAdf api m)) = [saveAreaDescription] /\
     forall r out w,
       TangoService_saveAreaDescription api (service m) = (r, out, w) ->
       (r = TANGO_SUCCESS -> forall uuid, out = Some uuid ->
          exists tr,
            SaveAdf api m = Returns uuid {| app := app m; service := w |} tr) /\
       (r <> TANGO_SUCCESS ->
          exists tr,
            SaveAdf api m = Returns EmptyString {| app := app m; service := w |} tr)).
Proof.
  split; intros H.
  - rewrite (SaveAdf_not_relocalized api m H). split; reflexivity.
  - rewrite (SaveAdf_relocalized api m H).
    destruct (TangoService_saveAreaDescription api (service m))
      as [[r0 out0] w0] eqn:E.
    split.
    + destruct (r0 =? TANGO_SUCCESS); [destruct out0|]; reflexivity.
    + intros r out w [= <- <- <-]. split.
      * intros -> uuid ->. simpl. eexists. reflexivity.
      * intros Hr. apply Z.eqb_neq in Hr. rewrite Hr.
        eexists. reflexivity.
Qed.

(** C10.  [SaveAdf] returns the empty string when the relocalization
    precondition fails and also when the service rejects the save, so
    the two failures look the same to the caller; a non-empty return
    value comes only from a successful save and is the UUID the service
    issued. *)
Theorem SaveAdf_failures_look_alike (m : machine W) :
  (PoseData.IsRelocalized (pose_data_ (app m)) = false ->
     exists m' tr, SaveAdf api m = Returns EmptyString m' tr) /\
  (PoseData.IsRelocalized (pose_data_ (app m)) = true ->
     forall r out w,
       TangoService_saveAreaDescription api (service m) = (r, out, w) ->
       r <> TANGO_SUCCESS ->
       exists m' tr, SaveAdf api m = Returns EmptyString m' tr) /\
  (forall s m' tr,
     SaveAdf api m = Returns s m' tr -> s <> EmptyString ->
     PoseData.IsRelocalized (pose_data_ (app m)) = true /\
     exists w,
       TangoService_saveAreaDescription api (service m)
       = (TANGO_SUCCESS, Some s, w)).
Proof.
  split; [|split].
  - intros H. rewrite (SaveAdf_not_relocalized api m H).
    do 2 eexists. reflexivity.
  - intros H r out w E Hr. rewrite (SaveAdf_relocalized api m H), E.
    apply Z.eqb_neq in Hr. rewrite Hr. do 2 eexists. reflexivity.
  - intros s m' tr Hs Hne.
    destruct (PoseData.IsRelocalized (pose_data_ (app m))) eqn:H.
    + split; [reflexivity|].
      rewrite (SaveAdf_relocalized api m H) in Hs.
      destruct (TangoService_saveAreaDescription api (service m))
        as [[r out] w].
      destruct (r =? TANGO_SUCCESS) eqn:Er.
      * apply Z.eqb_eq in Er. subst r.
        destruct out as [u|]; [|discriminate].
        injection Hs as -> _ _. exists w. reflexivity.
      * injection Hs as <- _ _. contradiction.
    + rewrite (SaveAdf_not_relocalized api m H) in Hs.
      injection Hs as <- _ _. contradiction.
Qed.

End SaveAdfResults.

Lemma SaveAdf_precondition_witness :
  (SaveAdf (Scripted.api (Scripted.accepting "u1" EmptyString EmptyString)) Scripted.fresh
   = Returns EmptyString Scripted.fresh [Member Pose_IsRelocalized] /\
   calls (trace (SaveAdf (Scripted.api (Scripted.accepting "u1" EmptyString EmptyString))
                         Scripted.fresh)) = []) /\
  calls (trace (SaveAdf (Scripted.api (Scripted.accepting "u1" EmptyString EmptyString))
                        Scripted.relocalized)) = [saveAreaDescription] /\
  (exists tr,
     SaveAdf (Scripted.api (Scripted.accepting "u1" EmptyString EmptyString)) Scripted.relocalized
     = Returns "u1" Scripted.relocalized tr) /\
  (exists tr,
     SaveAdf (Scripted.api Scripted.rejecting) Scripted.relocalized
     = Returns EmptyString Scripted.relocalized tr).
Proof.
  pose proof (SaveAdf_precondition
                (Scripted.api (Scripted.accepting "u1" EmptyString EmptyString)) Scripted.fresh)
    as [Hfresh _].
  pose proof (SaveAdf_precondition
                (Scripted.api (Scripted.accepting "u1" EmptyString EmptyString))
                Scripted.relocalized) as [_ Hrel].
  pose proof (SaveAdf_precondition
                (Scripted.api Scripted.rejecting) Scripted.relocalized)
    as [_ Hrej].
  split; [|split; [|split]].
  - apply Hfresh. reflexivity.
  - apply (Hrel eq_refl).
  - destruct (Hrel eq_refl) as [_ Hret].
    destruct (Hret TANGO_SUCCESS (Some "u1") tt eq_refl) as [Hok _].
    exact (Hok eq_refl "u1" eq_refl).
  - destruct (Hrej eq_refl) as [_ Hret].
    destruct (Hret TANGO_ERROR None tt eq_refl) as [_ Hfail].
    apply Hfail. discriminate.
Defined.

Lemma SaveAdf_failures_look_alike_witness :
  (exists m' tr,
     SaveAdf (Scripted.api Scripted.rejecting) Scripted.fresh
     = Returns EmptyString m' tr) /\
  (exists m' tr,
     SaveAdf (Scripted.api Scripted.rejecting) Scripted.relocalized
     = Returns EmptyString m' tr) /\
  (PoseData.IsRelocalized (pose_data_ (app Scripted.relocalized)) = true /\
   exists w,
     TangoService_saveAreaDescription
       (Scripted.api (Scripted.accepting "u1" EmptyString EmptyString)) tt
     = (TANGO_SUCCESS, Some "u1", w)).
Proof.
  split; [|split].
  - apply (proj1 (SaveAdf_failures_look_alike
                    (Scripted.api Scripted.rejecting) Scripted.fresh)).
    reflexivity.
  - apply (proj1 (proj2 (SaveAdf_failures_look_alike
                           (Scripted.api Scripted.rejecting)
                           Scripted.relocalized))
             eq_refl TANGO_ERROR None tt eq_refl).
    discriminate.
  - apply (proj2 (proj2 (SaveAdf_failures_look_alike
                           (Scripted.api (Scripted.accepting "u1" EmptyString EmptyString))
                           Scripted.relocalized))
             "u1" Scripted.relocalized
             [Member Pose_IsRelocalized; Service saveAreaDescription; LOGI]).
    + reflexivity.
    + discriminate.
Defined.
(** ** Listing *)

Lemma push_tokens_none (saved_ptr : string) (adf_list : list string) :
  push_tokens None saved_ptr adf_list = adf_list.
Proof. now simp push_tokens. Qed.

Lemma push_tokens_some (str saved_ptr : string) (adf_list : list string) :
  push_tokens (Some str) saved_ptr adf_list =
  push_tokens (fst (strtok_r None "," saved_ptr))
              (snd (strtok_r None "," saved_ptr)) (adf_list ++ [str]).
Proof.
  rewrite push_tokens_equation_1.
  destruct (inspect (strtok_r None "," saved_ptr)) as [[next rest] E].
  cbn [push_tokens_unfold_clause_2]. rewrite E. reflexivity.
Qed.

Lemma is_comma (c : ascii) : is_delim "," c = Ascii.eqb c ",".
Proof. simpl. apply orb_false_r. Qed.

Lemma tokens_skip_delims (s : string) :
  tokens_of_blob (skip_delims "," s) = tokens_of_blob s.
Proof.
  induction s as [|c r IH]; [reflexivity|].
  cbn [skip_delims]. rewrite is_comma.
  destruct (Ascii.eqb c ",") eqn:E; [|reflexivity].
  rewrite IH. unfold tokens_of_blob. cbn [split_commas]. rewrite E.
  reflexivity.
Qed.

Lemma split_span_token (s : string) :
  split_commas s =
  match snd (span_token "," s) with
  | EmptyString => [fst (span_token "," s)]
  | String _ rest => fst (span_token "," s) :: split_commas rest
  end.
Proof.
  induction s as [|c r IH]; [reflexivity|].
  cbn [span_token split_commas]. rewrite is_comma.
  destruct (Ascii.eqb c ",") eqn:E; [reflexivity|].
  rewrite IH. destruct (span_token "," r) as [t q]. cbn [fst snd].
  destruct q; reflexivity.
Qed.

Lemma span_token_nonempty (c : ascii) (r : string) :
  Ascii.eqb c "," = false ->
  nonempty (fst (span_token "," (String c r))) = true.
Proof.
  intros E. cbn [span_token]. rewrite is_comma, E.
  destruct (span_token "," r). reflexivity.
Qed.

Lemma skip_delims_head (s : string) (c : ascii) (r : string) :
  skip_delims "," s = String c r -> Ascii.eqb c "," = false.
Proof.
  induction s as [|a s IH]; [discriminate|].
  cbn [skip_delims]. rewrite is_comma.
  destruct (Ascii.eqb a ",") eqn:E; [exact IH|].
  intros [= <- <-]. exact E.
Qed.

Lemma strtok_r_unfold (s : string) :
  strtok_r None "," s =
  match skip_delims "," s with
  | EmptyString => (None, EmptyString)
  | String c r =>
      (Some (fst (span_token "," (String c r))),
       match snd (span_token "," (String c r)) with
       | EmptyString => EmptyString
       | String _ rest => rest
       end)
  end.
Proof.
  unfold strtok_r. destruct (skip_delims "," s) as [|c r]; [reflexivity|].
  destruct (span_token "," (String c r)) as [tok [|a rest]]; reflexivity.
Qed.

(** The loop, started on any string, collects the non-empty pieces. *)
Lemma push_tokens_spec (n : nat) :
  forall (s : string) (adf_list : list string),
    (String.length s < n)%nat ->
    push_tokens (fst (strtok_r None "," s)) (snd (strtok_r None "," s))
                adf_list
    = adf_list ++ tokens_of_blob s.
Proof.
  induction n as [|n IH]; intros s adf_list Hn; [lia|].
  destruct (strtok_r None "," s) as [pc sp] eqn:E. cbn [fst snd].
  assert (forall tok, pc = Some tok ->
                      (String.length sp < String.length s)%nat) as Hshrink.
  { intros tok ->. exact (strtok_r_shrinks "," s tok sp E). }
  rewrite strtok_r_unfold in E.
  rewrite <- (tokens_skip_delims s).
  destruct (skip_delims "," s) as [|c r] eqn:Es.
  - injection E as <- <-.
    rewrite push_tokens_none, app_nil_r. reflexivity.
  - pose proof (skip_delims_head s c r Es) as Ec.
    pose proof (span_token_nonempty c r Ec) as Hne.
    apply pair_equal_spec in E as [<- <-].
    specialize (Hshrink _ eq_refl).
    unfold tokens_of_blob at 1. rewrite (split_span_token (String c r)).
    rewrite push_tokens_some.
    rewrite IH by lia.
    rewrite <- app_assoc. f_equal.
    destruct (snd (span_token "," (String c r))) as [|a rest];
      cbn [filter]; rewrite Hne; reflexivity.
Qed.

Lemma parse_uuid_list_spec (blob : string) (adf_list : list string) :
  parse_uuid_list (Cstr blob) adf_list = adf_list ++ tokens_of_blob blob.
Proof.
  unfold parse_uuid_list. destruct blob as [|c r].
  - rewrite app_nil_r. reflexivity.
  - change (strtok_r (Some (String c r)) "," EmptyString)
      with (strtok_r None "," (String c r)).
    destruct (strtok_r None "," (String c r)) as [pc sp] eqn:E.
    pose proof (push_tokens_spec (S (String.length (String c r)))
                  (String c r) adf_list (Nat.lt_succ_diag_r _)) as H.
    rewrite E in H. exact H.
Qed.

Section Listing.

Context {W : Type} (api : Api W).

(** C5.  Whatever comma-separated blob the service hands back,
    [GetAdfUuids] returns normally and appends to the caller's list the
    non-empty pieces of the blob between commas, in blob order.  On the
    empty blob it appends nothing; on "a,b,c" it yields "a", "b", "c" in
    that order; on "a,b," it yields "a", "b". *)
Theorem GetAdfUuids_tokens (m : machine W) (adf_list : list string)
        (r : Z) (blob : string) (w : W) :
  TangoService_getAreaDescriptionUUIDList api (service m)
  = (r, Some (Cstr blob), w) ->
  (exists tr,
     GetAdfUuids api adf_list m
     = Returns (adf_list ++ tokens_of_blob blob)
               {| app := app m; service := w |} tr) /\
  (blob = EmptyString ->
   exists tr,
     GetAdfUuids api [] m = Returns [] {| app := app m; service := w |} tr) /\
  (blob = "a,b,c" ->
   exists tr,
     GetAdfUuids api [] m
     = Returns ["a"; "b"; "c"] {| app := app m; service := w |} tr) /\
  (blob = "a,b," ->
   exists tr,
     GetAdfUuids api [] m
     = Returns ["a"; "b"] {| app := app m; service := w |} tr).
Proof.
  intros E.
  assert (forall adf_list,
             exists tr,
               GetAdfUuids api adf_list m
               = Returns (adf_list ++ tokens_of_blob blob)
                         {| app := app m; service := w |} tr) as H.
  { intros l. rewrite <- parse_uuid_list_spec.
    unfold GetAdfUuids, bind, tango. rewrite E. cbn [assign].
    unfold log_unless_success.
    destruct (r =? TANGO_SUCCESS); eexists; reflexivity. }
  split; [apply H|].
  repeat split; intros ->; exact (H []).
Qed.

End Listing.

Lemma GetAdfUuids_tokens_witness :
  (exists tr,
     GetAdfUuids (Scripted.api (Scripted.accepting EmptyString "a,b,c" EmptyString)) ["z"]
                 Scripted.fresh
     = Returns (["z"] ++ tokens_of_blob "a,b,c") Scripted.fresh tr) /\
  (exists tr,
     GetAdfUuids (Scripted.api (Scripted.accepting EmptyString EmptyString EmptyString)) []
                 Scripted.fresh
     = Returns [] Scripted.fresh tr) /\
  (exists tr,
     GetAdfUuids (Scripted.api (Scripted.accepting EmptyString "a,b,c" EmptyString)) []
                 Scripted.fresh
     = Returns ["a"; "b"; "c"] Scripted.fresh tr) /\
  (exists tr,
     GetAdfUuids (Scripted.api (Scripted.accepting EmptyString "a,b," EmptyString)) []
                 Scripted.fresh
     = Returns ["a"; "b"] Scripted.fresh tr).
Proof.
  split; [|split; [|split]].
  - exact (proj1 (GetAdfUuids_tokens
                    (Scripted.api (Scripted.accepting EmptyString "a,b,c" EmptyString))
                    Scripted.fresh ["z"] TANGO_SUCCESS "a,b,c" tt eq_refl)).
  - exact (proj1 (proj2 (GetAdfUuids_tokens
                           (Scripted.api (Scripted.accepting EmptyString EmptyString EmptyString))
                           Scripted.fresh [] TANGO_SUCCESS EmptyString tt eq_refl))
             eq_refl).
  - exact (proj1 (proj2 (proj2 (GetAdfUuids_tokens
                           (Scripted.api (Scripted.accepting EmptyString "a,b,c" EmptyString))
                           Scripted.fresh [] TANGO_SUCCESS "a,b,c" tt eq_refl)))
             eq_refl).
  - exact (proj2 (proj2 (proj2 (GetAdfUuids_tokens
                           (Scripted.api (Scripted.accepting EmptyString "a,b," EmptyString))
                           Scripted.fresh [] TANGO_SUCCESS "a,b," tt eq_refl)))
             eq_refl).
Defined.
(** ** Progress reports *)

Section Rounding.

Lemma rne_le (n d k : Z) : 0 < d -> n <= k * d -> rne n d <= k.
Proof.
  intros Hd H. unfold rne.
  pose proof (Z.div_mod n d ltac:(lia)) as E.
  pose proof (Z.mod_pos_bound n d Hd) as B.
  destruct (Z.ltb_spec (2 * (n mod d)) d).
  - nia.
  - assert (n / d < k) by nia.
    destruct (d <? 2 * (n mod d)); [lia|].
    destruct (Z.even (n / d)); lia.
Qed.

Lemma rne_nonneg (n d : Z) : 0 <= n -> 0 < d -> 0 <= rne n d.
Proof.
  intros Hn Hd. unfold rne.
  pose proof (Z.div_pos n d Hn Hd).
  destruct (2 * (n mod d) <? d); [lia|].
  destruct (d <? 2 * (n mod d)); [lia|].
  destruct (Z.even (n / d)); lia.
Qed.

Lemma flog2_percent (n d : Z) :
  0 < n -> 0 < d -> n <= 100 * d -> flog2 n d <= 7.
Proof.
  intros Hn Hd H. unfold flog2.
  assert (Z.log2 n <= 7 + Z.log2 d) as Hlog.
  { rewrite <- (Z.log2_mul_pow2 d 7) by lia.
    apply Z.log2_le_mono. change (2 ^ 7) with 128. lia. }
  destruct (scale2 n d (Z.log2 n - Z.log2 d)) as [n' d'].
  destruct (n' <? d'); lia.
Qed.

Lemma to_int_small (m e : Z) :
  e < 0 -> 0 <= m <= 100 * 2 ^ (- e) ->
  exists p, to_int (Fin false m e) = Some p /\ 0 <= p <= 100.
Proof.
  intros He Hm. unfold to_int.
  destruct (Z.leb_spec 0 e); [lia|].
  assert (0 < 2 ^ (- e)) as Hp by (apply Z.pow_pos_nonneg; lia).
  assert (0 <= m / 2 ^ (- e) <= 100) as Hq.
  { split; [apply Z.div_pos; lia|].
    apply Z.div_le_upper_bound; lia. }
  exists (m / 2 ^ (- e)). split; [|exact Hq].
  unfold INT_MIN, INT_MAX.
  destruct (Z.leb_spec (- 2 ^ 31) (m / 2 ^ (- e))); [|lia].
  destruct (Z.leb_spec (m / 2 ^ (- e)) (2 ^ 31 - 1)); [reflexivity|lia].
Qed.

(** A positive ratio of at most 100 rounds to a double of at most 100. *)
Lemma round_pos_percent (n d : Z) :
  0 < n -> 0 < d -> n <= 100 * d ->
  exists p, to_int (round_pos false n d) = Some p /\ 0 <= p <= 100.
Proof.
  intros Hn Hd H. unfold round_pos.
  pose proof (flog2_percent n d Hn Hd H) as Hlog.
  set (ex := Z.max (flog2 n d - 52) (-1074)).
  assert (-1074 <= ex <= -45) as Hex by (unfold ex; lia).
  unfold scale2. destruct (Z.leb_spec 0 ex); [lia|].
  assert (0 < 2 ^ (- ex)) as Hp by (apply Z.pow_pos_nonneg; lia).
  set (m := rne (n * 2 ^ (- ex)) d).
  assert (0 <= m) as Hm0 by (apply rne_nonneg; nia).
  assert (m <= 100 * 2 ^ (- ex)) as Hm1 by (apply rne_le; nia).
  destruct (Z.eqb_spec m 0) as [_|_].
  - exists 0. split; [reflexivity|lia].
  - destruct (Z.eqb_spec m (2 ^ 53)) as [E|_].
    + destruct (Z.leb_spec 972 (ex + 1)); [lia|].
      apply to_int_small; [lia|].
      replace (- ex) with (Z.succ (- (ex + 1))) in Hm1 by lia.
      rewrite Z.pow_succ_r in Hm1 by lia.
      rewrite E in Hm1. change (2 ^ 53) with (2 * 2 ^ 52) in Hm1.
      split; [|lia]. apply Z.pow_nonneg. lia.
    + destruct (Z.leb_spec 972 ex); [lia|].
      apply to_int_small; lia.
Qed.

(** A ratio in [0.0, 1.0] times 100 is a percentage in [0, 100]. *)
Lemma percent_of_ratio (x : double) :
  is_ratio x = true ->
  exists p, to_int (mul x (of_int 100)) = Some p /\ 0 <= p <= 100.
Proof.
  change (of_int 100) with (Fin false 7036874417766400 (-46)).
  destruct x as [| |neg m e]; try discriminate.
  unfold is_ratio, mul, scale2. intros H.
  apply andb_prop in H as [H Hle]. apply andb_prop in H as [Hsign Hm].
  apply Z.leb_le in Hm.
  destruct (Z.eqb_spec m 0) as [->|Hne].
  - exists 0. split; [|lia].
    destruct (0 <=? - (e + -46)); destruct neg; reflexivity.
  - simpl in Hsign. apply negb_true_iff in Hsign. subst neg.
    assert (e <= 0) as He.
    { destruct (Z.leb_spec 0 (- e)); [lia|].
      apply Z.leb_le in Hle.
      assert (2 <= 2 ^ (- - e)).
      { change 2 with (2 ^ 1) at 1. apply Z.pow_le_mono_r; lia. }
      nia. }
    destruct (Z.leb_spec 0 (- e)); [|lia]. apply Z.leb_le in Hle.
    destruct (Z.leb_spec 0 (- (e + -46))); [|lia].
    replace (- (e + -46)) with (- e + 46) by lia.
    rewrite Z.pow_add_r by lia.
    assert (0 < 2 ^ (- e)) as Hp by (apply Z.pow_pos_nonneg; lia).
    change (2 ^ 46) with 70368744177664.
    cbn [xorb]. unfold round.
    destruct (Z.eqb_spec (m * 7036874417766400) 0); [lia|].
    apply round_pos_percent; nia.
Qed.

End Rounding.

Section Ingestion.

Context {W : Type}.

Lemma onTangoEventAvailable_run (event : TangoEvent) (m : machine W) :
  onTangoEventAvailable event m =
  if is_save_progress event then
    match progress_of event with
    | Some progress =>
        Returns tt (with_event event m)
                [Lock tango_event_mutex_; Member Event_UpdateTangoEvent;
                 GetEnv; CallVoidMethod progress; Unlock tango_event_mutex_]
    | None =>
        Undefined (with_event event m)
                  [Lock tango_event_mutex_; Member Event_UpdateTangoEvent]
    end
  else
    Returns tt (with_event event m)
            [Lock tango_event_mutex_; Member Event_UpdateTangoEvent;
             Unlock tango_event_mutex_].
Proof.
  unfold onTangoEventAvailable, lock_guard, bind, emit, event_call, ret.
  cbn. destruct (is_save_progress event); [|reflexivity].
  destruct (progress_of event); reflexivity.
Qed.

Lemma TangoEventType_eqb_eq (a b : TangoEventType) :
  TangoEventType_eqb a b = true <-> a = b.
Proof. destruct a, b; simpl; split; congruence. Qed.

Lemma is_save_progress_iff (event : TangoEvent) :
  is_save_progress event = true <->
  type event = TANGO_EVENT_AREA_LEARNING /\
  event_key event = "AreaDescriptionSaveProgress".
Proof.
  unfold is_save_progress, strcmp_eq.
  rewrite andb_true_iff, TangoEventType_eqb_eq, String.eqb_eq. reflexivity.
Qed.

(** C4, as the code has it.  [onTangoEventAvailable] calls the progress
    reporter only for an event of type area-learning whose key is
    "AreaDescriptionSaveProgress".  For such an event it reports, once,
    the [double] product of [atof] of the value and 100 with its
    fractional part discarded, whenever that fits an [int]; the reported
    value lies in [0, 100] whenever the value parses to a ratio in
    [0.0, 1.0], and is not clamped otherwise.  The value "0.37" is
    reported as 37, and the value "oops" as 0 with a normal return. *)
Theorem progress_report (event : TangoEvent) (m : machine W) :
  (reports (trace (onTangoEventAvailable event m)) <> [] ->
     type event = TANGO_EVENT_AREA_LEARNING /\
     event_key event = "AreaDescriptionSaveProgress") /\
  (type event = TANGO_EVENT_AREA_LEARNING ->
   event_key event = "AreaDescriptionSaveProgress" ->
     (forall p,
        to_int (mul (atof (event_value event)) (of_int 100)) = Some p ->
        exists m' tr,
          onTangoEventAvailable event m = Returns tt m' tr /\
          reports tr = [p]) /\
     (is_ratio (atof (event_value event)) = true ->
        exists p m' tr,
          onTangoEventAvailable event m = Returns tt m' tr /\
          reports tr = [p] /\ 0 <= p <= 100) /\
     (event_value event = "0.37" ->
        exists m' tr,
          onTangoEventAvailable event m = Returns tt m' tr /\
          reports tr = [37]) /\
     (event_value event = "oops" ->
        exists m' tr,
          onTangoEventAvailable event m = Returns tt m' tr /\
          reports tr = [0])).
Proof.
  rewrite onTangoEventAvailable_run. split.
  - intros H. apply is_save_progress_iff.
    destruct (is_save_progress event); [reflexivity|].
    exfalso. apply H. reflexivity.
  - intros Hty Hkey.
    rewrite (proj2 (is_save_progress_iff event) (conj Hty Hkey)).
    unfold progress_of.
    assert (forall p,
               to_int (mul (atof (event_value event)) (of_int 100)) = Some p ->
               exists m' tr,
                 match to_int (mul (atof (event_value event)) (of_int 100)) with
                 | Some progress =>
                     Returns tt (with_event event m)
                       [Lock tango_event_mutex_; Member Event_UpdateTangoEvent;
                        GetEnv; CallVoidMethod progress;
                        Unlock tango_event_mutex_]
                 | None =>
                     Undefined (with_event event m)
                       [Lock tango_event_mutex_; Member Event_UpdateTangoEvent]
                 end = Returns tt m' tr /\ reports tr = [p]) as Hrun.
    { intros p ->. do 2 eexists. split; reflexivity. }
    repeat split.
    + exact Hrun.
    + intros Hratio.
      destruct (percent_of_ratio _ Hratio) as [p [Hp Hrange]].
      destruct (Hrun p Hp) as [m' [tr [E R]]].
      exists p, m', tr. auto.
    + intros E. apply Hrun. rewrite E. reflexivity.
    + intros E. apply Hrun. rewrite E. reflexivity.
Qed.

(** C6, as the code has it.  The guard on [tango_event_mutex_] lives to
    the end of [onTangoEventAvailable], for every event: taking the lock
    is the first action, the store update and the progress report, when
    there is one, are made while the lock is held, and when the callback
    returns the release of the lock is its last action, after the report
    call has returned. *)
Theorem report_made_under_event_lock (event : TangoEvent) (m : machine W) :
  (exists rest,
     trace (onTangoEventAvailable event m)
     = Lock tango_event_mutex_ :: Member Event_UpdateTangoEvent :: rest) /\
  respects under_event_lock [] (trace (onTangoEventAvailable event m))
  = true /\
  respects report_under_lock [] (trace (onTangoEventAvailable event m))
  = true /\
  (forall a m' tr,
     onTangoEventAvailable event m = Returns a m' tr ->
     tr = [Lock tango_event_mutex_; Member Event_UpdateTangoEvent;
           Unlock tango_event_mutex_] \/
     exists p,
       tr = [Lock tango_event_mutex_; Member Event_UpdateTangoEvent;
             GetEnv; CallVoidMethod p; Unlock tango_event_mutex_]) /\
  (is_save_progress event = false ->
   onTangoEventAvailable event m
   = Returns tt (with_event event m)
             [Lock tango_event_mutex_; Member Event_UpdateTangoEvent;
              Unlock tango_event_mutex_]) /\
  (forall p,
     is_save_progress event = true -> progress_of event = Some p ->
     onTangoEventAvailable event m
     = Returns tt (with_event event m)
               [Lock tango_event_mutex_; Member Event_UpdateTangoEvent;
                GetEnv; CallVoidMethod p; Unlock tango_event_mutex_]).
Proof.
  rewrite onTangoEventAvailable_run.
  split; [|split; [|split; [|split; [|split]]]].
  - destruct (is_save_progress event); [|eexists; reflexivity].
    destruct (progress_of event); eexists; reflexivity.
  - destruct (is_save_progress event); [|reflexivity].
    destruct (progress_of event); reflexivity.
  - destruct (is_save_progress event); [|reflexivity].
    destruct (progress_of event); reflexivity.
  - intros a m' tr H.
    destruct (is_save_progress event).
    + destruct (progress_of event) as [p|]; [|discriminate].
      right. exists p. injection H as _ _ <-. reflexivity.
    + left. injection H as _ _ <-. reflexivity.
  - intros ->. reflexivity.
  - intros p -> ->. reflexivity.
Qed.

End Ingestion.

Lemma progress_report_witness :
  (type (Scripted.event TANGO_EVENT_AREA_LEARNING
                        "AreaDescriptionSaveProgress" "0.37")
   = TANGO_EVENT_AREA_LEARNING /\
   event_key (Scripted.event TANGO_EVENT_AREA_LEARNING
                             "AreaDescriptionSaveProgress" "0.37")
   = "AreaDescriptionSaveProgress") /\
  (exists m' tr,
     onTangoEventAvailable
       (Scripted.event TANGO_EVENT_AREA_LEARNING
                       "AreaDescriptionSaveProgress" "0.37") Scripted.fresh
     = Returns tt m' tr /\ reports tr = [37]) /\
  (exists p m' tr,
     onTangoEventAvailable
       (Scripted.event TANGO_EVENT_AREA_LEARNING
                       "AreaDescriptionSaveProgress" "0.37") Scripted.fresh
     = Returns tt m' tr /\ reports tr = [p] /\ 0 <= p <= 100) /\
  (exists m' tr,
     onTangoEventAvailable
       (Scripted.event TANGO_EVENT_AREA_LEARNING
                       "AreaDescriptionSaveProgress" "oops") Scripted.fresh
     = Returns tt m' tr /\ reports tr = [0]).
Proof.
  pose proof (progress_report
                (Scripted.event TANGO_EVENT_AREA_LEARNING
                                "AreaDescriptionSaveProgress" "0.37")
                Scripted.fresh) as [Honly H].
  pose proof (progress_report
                (Scripted.event TANGO_EVENT_AREA_LEARNING
                                "AreaDescriptionSaveProgress" "oops")
                Scripted.fresh) as [_ H'].
  destruct (H eq_refl eq_refl) as [Hfits [Hratio [H37 _]]].
  destruct (H' eq_refl eq_refl) as [_ [_ [_ Hoops]]].
  split; [|split; [|split]].
  - apply Honly. vm_compute. discriminate.
  - apply (Hfits 37). vm_compute. reflexivity.
  - apply Hratio. vm_compute. reflexivity.
  - apply Hoops. reflexivity.
Defined.

(** The value "2" is reported as 200. *)
Lemma progress_report_not_clamped :
  reports (trace (onTangoEventAvailable
                    (Scripted.event TANGO_EVENT_AREA_LEARNING
                                    "AreaDescriptionSaveProgress" "2")
                    Scripted.fresh)) = [200] /\
  ~ (0 <= 200 <= 100).
Proof. split; [vm_compute; reflexivity|lia]. Qed.

Lemma report_made_under_event_lock_witness :
  onTangoEventAvailable
    (Scripted.event TANGO_EVENT_AREA_LEARNING
                    "AreaDescriptionSaveProgress" "0.37") Scripted.fresh
  = Returns tt
            (with_event (Scripted.event TANGO_EVENT_AREA_LEARNING
                                        "AreaDescriptionSaveProgress" "0.37")
                        Scripted.fresh)
            [Lock tango_event_mutex_; Member Event_UpdateTangoEvent;
             GetEnv; CallVoidMethod 37; Unlock tango_event_mutex_] /\
  onTangoEventAvailable
    (Scripted.event TANGO_EVENT_GENERAL "TangoServiceException" "oops")
    Scripted.fresh
  = Returns tt
            (with_event (Scripted.event TANGO_EVENT_GENERAL
                                        "TangoServiceException" "oops")
                        Scripted.fresh)
            [Lock tango_event_mutex_; Member Event_UpdateTangoEvent;
             Unlock tango_event_mutex_] /\
  ([Lock tango_event_mutex_; Member Event_UpdateTangoEvent;
    Unlock tango_event_mutex_]
   = [Lock tango_event_mutex_; Member Event_UpdateTangoEvent;
      Unlock tango_event_mutex_] \/
   exists p,
     [Lock tango_event_mutex_; Member Event_UpdateTangoEvent;
      Unlock tango_event_mutex_]
     = [Lock tango_event_mutex_; Member Event_UpdateTangoEvent;
        GetEnv; CallVoidMethod p; Unlock tango_event_mutex_]).
Proof.
  pose proof (report_made_under_event_lock
                (Scripted.event TANGO_EVENT_AREA_LEARNING
                                "AreaDescriptionSaveProgress" "0.37")
                Scripted.fresh) as [_ [_ [_ [_ [_ Hreport]]]]].
  pose proof (report_made_under_event_lock
                (Scripted.event TANGO_EVENT_GENERAL
                                "TangoServiceException" "oops")
                Scripted.fresh) as [_ [_ [_ [Hreturns [Hplain _]]]]].
  split; [|split].
  - apply Hreport; [reflexivity|vm_compute; reflexivity].
  - apply Hplain. reflexivity.
  - apply (Hreturns tt
             (with_event (Scripted.event TANGO_EVENT_GENERAL
                                         "TangoServiceException" "oops")
                         Scripted.fresh)).
    reflexivity.
Defined.

(** At a save-progress event the report call is made before the event
    lock is released. *)
Lemma report_not_after_release :
  respects report_after_release []
           (trace (onTangoEventAvailable
                     (Scripted.event TANGO_EVENT_AREA_LEARNING
                                     "AreaDescriptionSaveProgress" "0.37")
                     Scripted.fresh)) = false.
Proof. vm_compute. reflexivity. Qed.
(** ** Pose state and its locks *)

Section Pose.

Context {W : Type} (api : Api W) (display : Display).

Lemma onPoseAvailable_run (pose : TangoPoseData) (m : machine W) :
  onPoseAvailable pose m
  = Returns tt (with_pose pose m)
            [Lock pose_mutex_; Member Pose_UpdatePose; Unlock pose_mutex_].
Proof. reflexivity. Qed.

Lemma IsRelocalized_run (m : machine W) :
  IsRelocalized m
  = Returns (relocalized m) m
            [Lock pose_mutex_; Member Pose_IsRelocalized; Unlock pose_mutex_].
Proof. destruct m as [[p e] w]. reflexivity. Qed.

Lemma FreeContent_run (m : machine W) :
  FreeContent m
  = Returns tt (with_reset m) [Member Pose_ResetPoseData; FreeGLContent].
Proof. reflexivity. Qed.

Lemma Render_run (m : machine W) :
  Render m
  = Returns tt m
            [Lock pose_mutex_; Member Pose_GetCurrentPoseData;
             Unlock pose_mutex_; Member Pose_IsRelocalized;
             SceneRender (relocalized m)].
Proof. destruct m as [[p e] w]. reflexivity. Qed.

Lemma UpdatePose_flag (pose : TangoPoseData) (d : PoseData.t) :
  PoseData.IsRelocalized (PoseData.UpdatePose pose d)
  = PoseData.IsRelocalized d || relocalizing pose.
Proof.
  unfold PoseData.UpdatePose, relocalizing, PoseData.IsRelocalized.
  destruct (base (frame pose)), (target (frame pose)); cbn;
    try (rewrite orb_false_r; reflexivity).
  destruct (status_code pose), (PoseData.is_relocalized_ d); reflexivity.
Qed.

Lemma with_pose_flag (pose : TangoPoseData) (m : machine W) :
  relocalized (with_pose pose m) = relocalized m || relocalizing pose.
Proof. apply UpdatePose_flag. Qed.

Lemma deliver_flag (poses : list TangoPoseData) :
  forall m : machine W,
    relocalized (deliver poses m)
    = relocalized m || existsb relocalizing poses.
Proof.
  induction poses as [|pose rest IH]; intros m.
  - cbn. rewrite orb_false_r. reflexivity.
  - cbn [deliver fold_left existsb].
    change (fold_left _ rest ?x) with (deliver rest x).
    rewrite IH, onPoseAvailable_run. cbn [final].
    rewrite with_pose_flag, orb_assoc. reflexivity.
Qed.

(** *** What keeps the flag *)

Lemma keeps_flag_ret {A : Type} (a : A) : keeps_flag (W := W) (ret a).
Proof. intros m. reflexivity. Qed.

Lemma keeps_flag_undefined {A : Type} : keeps_flag (W := W) (A := A) undefined.
Proof. intros m. reflexivity. Qed.

Lemma keeps_flag_emit (a : action) : keeps_flag (W := W) (emit a).
Proof. intros m. reflexivity. Qed.

Lemma keeps_flag_bind {A B : Type} (c : M W A) (k : A -> M W B) :
  keeps_flag c -> (forall a, keeps_flag (k a)) -> keeps_flag (bind c k).
Proof.
  intros Hc Hk m. unfold bind. specialize (Hc m).
  destruct (c m) as [a m1 tr1|m1 tr1]; cbn [final] in *; [|exact Hc].
  specialize (Hk a m1).
  destruct (k a m1) as [b m2 tr2|m2 tr2]; cbn [final] in *; congruence.
Qed.

Lemma keeps_flag_tango {A : Type} (c : call) (entry : W -> A * W) :
  keeps_flag (tango c entry).
Proof. intros m. unfold tango. destruct (entry (service m)). reflexivity. Qed.

Lemma keeps_flag_event_call {A : Type} (f : member) (value : EventData.t -> A)
      (after : EventData.t -> EventData.t) :
  keeps_flag (W := W) (event_call f value after).
Proof. intros m. reflexivity. Qed.

Lemma keeps_flag_pose_read {A : Type} (f : member) (value : PoseData.t -> A) :
  keeps_flag (W := W) (pose_call f value id).
Proof. intros m. reflexivity. Qed.

Lemma keeps_flag_lock_guard {A : Type} (mx : mutex) (body : M W A) :
  keeps_flag body -> keeps_flag (lock_guard mx body).
Proof.
  intros H. unfold lock_guard.
  repeat (apply keeps_flag_bind; [|intros ?]);
    auto using keeps_flag_emit, keeps_flag_ret.
Qed.

Create HintDb flag.
#[local] Hint Resolve keeps_flag_ret keeps_flag_undefined keeps_flag_emit
  keeps_flag_tango keeps_flag_event_call keeps_flag_pose_read : flag.

Ltac keeps_flag_step :=
  match goal with
  | |- keeps_flag (bind _ _) => apply keeps_flag_bind; [|intros ?]
  | |- keeps_flag (lock_guard _ _) => apply keeps_flag_lock_guard
  | |- keeps_flag (let '(_, _) := ?x in _) => destruct x
  | |- keeps_flag (if ?b then _ else _) => destruct b
  | |- keeps_flag (match ?x with _ => _ end) => destruct x
  | |- keeps_flag _ => solve [auto with flag]
  end.

(** Every member function other than [onPoseAvailable] and [FreeContent]
    keeps the flag. *)
Lemma members_keep_flag :
  (forall event, keeps_flag (W := W) (onTangoEventAvailable event)) /\
  keeps_flag (SaveAdf api) /\
  (forall uuid key, keeps_flag (GetAdfMetadataValue api uuid key)) /\
  (forall uuid key value,
      keeps_flag (SetAdfMetadataValue api uuid key value)) /\
  keeps_flag (GetAllAdfUuids api) /\
  (forall uuid, keeps_flag (DeleteAdf api uuid)) /\
  (forall adf_list, keeps_flag (GetAdfUuids api adf_list)) /\
  keeps_flag (W := W) Render /\
  keeps_flag (W := W) IsRelocalized /\
  keeps_flag (W := W) (GetStartServiceTDeviceString display) /\
  keeps_flag (W := W) (GetAdfTDeviceString display) /\
  keeps_flag (W := W) (GetAdfTStartServiceString display) /\
  keeps_flag (W := W) (GetEventString display).
Proof.
  repeat split; intros;
    unfold onTangoEventAvailable, OnAdfSavingProgressChanged, SaveAdf,
      GetAdfMetadataValue, SetAdfMetadataValue, GetAllAdfUuids, DeleteAdf,
      GetAdfUuids, Render, IsRelocalized, GetStartServiceTDeviceString,
      GetAdfTDeviceString, GetAdfTStartServiceString, GetEventString,
      log_unless_success, std_string, std_string_of_array;
    repeat keeps_flag_step.
Qed.

(** C8.  Over any sequence of pose callbacks, [IsRelocalized()] answers
    true exactly when the flag was already set or one of the poses
    delivered so far was a valid (area description, device) pose: on a
    freshly constructed or a reset pose store it is false until the first
    such pose and true from then on, whatever the status of later poses.
    [FreeContent], through [ResetPoseData], clears it, and no other member
    function changes it. *)
Theorem IsRelocalized_monotone (poses : list TangoPoseData) (m : machine W) :
  IsRelocalized (deliver poses m)
  = Returns (relocalized m || existsb relocalizing poses) (deliver poses m)
            [Lock pose_mutex_; Member Pose_IsRelocalized; Unlock pose_mutex_]
  /\ PoseData.IsRelocalized PoseData.empty = false
  /\ IsRelocalized (deliver poses (final (FreeContent m)))
     = Returns (existsb relocalizing poses)
               (deliver poses (final (FreeContent m)))
               [Lock pose_mutex_; Member Pose_IsRelocalized;
                Unlock pose_mutex_]
  /\ relocalized (final (FreeContent (deliver poses m))) = false
  /\ ((forall event, keeps_flag (W := W) (onTangoEventAvailable event)) /\
      keeps_flag (SaveAdf api) /\
      (forall uuid key, keeps_flag (GetAdfMetadataValue api uuid key)) /\
      (forall uuid key value,
          keeps_flag (SetAdfMetadataValue api uuid key value)) /\
      keeps_flag (GetAllAdfUuids api) /\
      (forall uuid, keeps_flag (DeleteAdf api uuid)) /\
      (forall adf_list, keeps_flag (GetAdfUuids api adf_list)) /\
      keeps_flag (W := W) Render /\
      keeps_flag (W := W) IsRelocalized /\
      keeps_flag (W := W) (GetStartServiceTDeviceString display) /\
      keeps_flag (W := W) (GetAdfTDeviceString display) /\
      keeps_flag (W := W) (GetAdfTStartServiceString display) /\
      keeps_flag (W := W) (GetEventString display)).
Proof.
  rewrite !IsRelocalized_run, !deliver_flag.
  split; [reflexivity|]. split; [reflexivity|].
  split; [reflexivity|]. split; [reflexivity|].
  exact members_keep_flag.
Qed.

(** C7, at [Render] and [SaveAdf].  [Render] copies the pose under
    [pose_mutex_], releases the lock, and only then reads the
    relocalization flag; [SaveAdf] reads the flag without taking the lock
    at all.  The accessors [IsRelocalized], [GetStartServiceTDeviceString],
    [GetAdfTDeviceString], [GetAdfTStartServiceString] and
    [GetEventString] read under the lock of the writer. *)
Theorem Render_reads_flag_unlocked (m : machine W) :
  trace (Render m)
  = [Lock pose_mutex_; Member Pose_GetCurrentPoseData; Unlock pose_mutex_;
     Member Pose_IsRelocalized; SceneRender (relocalized m)]
  /\ respects read_discipline [] (trace (Render m)) = false
  /\ respects read_discipline [] (trace (SaveAdf api m)) = false
  /\ respects read_discipline [] (trace (IsRelocalized m)) = true
  /\ respects read_discipline []
              (trace (GetStartServiceTDeviceString display m)) = true
  /\ respects read_discipline [] (trace (GetAdfTDeviceString display m))
     = true
  /\ respects read_discipline []
              (trace (GetAdfTStartServiceString display m)) = true
  /\ respects read_discipline [] (trace (GetEventString display m)) = true.
Proof.
  rewrite Render_run, IsRelocalized_run.
  split; [reflexivity|]. split; [reflexivity|]. split; [|repeat split].
  destruct (PoseData.IsRelocalized (pose_data_ (app m))) eqn:E.
  - rewrite (SaveAdf_relocalized api m E).
    destruct (TangoService_saveAreaDescription api (service m))
      as [[r out] w].
    destruct (r =? TANGO_SUCCESS); [destruct out|]; reflexivity.
  - rewrite (SaveAdf_not_relocalized api m E). reflexivity.
Qed.

End Pose.
(** ** Metadata and the UUID list under failing service calls *)

Section Metadata.

Context {W : Type} (api : Api W).

Lemma calls_app (tr1 tr2 : list action) :
  calls (tr1 ++ tr2) = calls tr1 ++ calls tr2.
Proof.
  induction tr1 as [|a tr1 IH]; [reflexivity|].
  destruct a; cbn; rewrite ?IH; reflexivity.
Qed.

Lemma log_unless_success_run (r : Z) (m : machine W) :
  log_unless_success r m
  = Returns tt m (if r =? TANGO_SUCCESS then [] else [LOGE (Some r)]).
Proof. unfold log_unless_success. destruct (r =? TANGO_SUCCESS); reflexivity. Qed.

Lemma calls_log (r : Z) :
  calls (if r =? TANGO_SUCCESS then [] else [LOGE (Some r)]) = [].
Proof. destruct (r =? TANGO_SUCCESS); reflexivity. Qed.

Lemma SetAdfMetadataValue_calls (uuid key value : string) (m : machine W) :
  calls (trace (SetAdfMetadataValue api uuid key value m))
  = let metadata :=
      assign Indeterminate
        (snd (fst (TangoService_getAreaDescriptionMetadata
                     api uuid (service m)))) in
    [getAreaDescriptionMetadata uuid;
     Metadata_set metadata key (Z.of_nat (String.length value)) value;
     saveAreaDescriptionMetadata uuid metadata].
Proof.
  unfold SetAdfMetadataValue, bind, tango. cbn [service app].
  destruct (TangoService_getAreaDescriptionMetadata api uuid (service m))
    as [[r1 out] w1].
  rewrite log_unless_success_run. cbn [fst snd service app].
  destruct (TangoAreaDescriptionMetadata_set api _ key _ value w1)
    as [r2 w2].
  rewrite log_unless_success_run. cbn [service app].
  destruct (TangoService_saveAreaDescriptionMetadata api uuid _ w2)
    as [r3 w3].
  rewrite log_unless_success_run. cbn [trace].
  rewrite !calls_app, !calls_log. reflexivity.
Qed.

Lemma GetAdfMetadataValue_calls (uuid key : string) (m : machine W) :
  calls (trace (GetAdfMetadataValue api uuid key m))
  = [getAreaDescriptionMetadata uuid;
     Metadata_get
       (assign Indeterminate
          (snd (fst (TangoService_getAreaDescriptionMetadata
                       api uuid (service m))))) key].
Proof.
  unfold GetAdfMetadataValue, bind, tango. cbn [service app].
  destruct (TangoService_getAreaDescriptionMetadata api uuid (service m))
    as [[r1 out1] w1].
  rewrite log_unless_success_run. cbn [fst snd service app].
  destruct (TangoAreaDescriptionMetadata_get api _ key w1)
    as [[r2 out2] w2].
  rewrite log_unless_success_run.
  assert (forall (p : local cptr) (m' : machine W),
             trace (std_string p m') = []) as Hstr.
  { intros [|[|s]] m'; reflexivity. }
  specialize (Hstr (assign Indeterminate out2)
                   {| app := app m; service := w2 |}).
  destruct (std_string _ _); cbn [trace] in *; subst tr;
    rewrite !calls_app, !calls_log; reflexivity.
Qed.

(** The service state that [SetAdfMetadataValue] leaves is the one its
    three calls lead to, one after the other. *)
Lemma SetAdfMetadataValue_service (uuid key value : string) (m : machine W) :
  service (final (SetAdfMetadataValue api uuid key value m))
  = let '(_, out, w1) :=
      TangoService_getAreaDescriptionMetadata api uuid (service m) in
    let metadata := assign Indeterminate out in
    let '(_, w2) :=
      TangoAreaDescriptionMetadata_set
        api metadata key (Z.of_nat (String.length value)) value w1 in
    snd (TangoService_saveAreaDescriptionMetadata api uuid metadata w2).
Proof.
  unfold SetAdfMetadataValue, bind, tango. cbn [service app].
  destruct (TangoService_getAreaDescriptionMetadata api uuid (service m))
    as [[r1 out] w1].
  rewrite log_unless_success_run. cbn [service app].
  destruct (TangoAreaDescriptionMetadata_set api _ key _ value w1)
    as [r2 w2].
  rewrite log_unless_success_run. cbn [service app].
  destruct (TangoService_saveAreaDescriptionMetadata api uuid _ w2)
    as [r3 w3].
  rewrite log_unless_success_run. reflexivity.
Qed.

Section StoreOfRecord.

(** What the service has on record for a key of an area description. *)
Variable stored : W -> string -> string -> option string.

(** The service keeps its record through a fetch of a handle and through
    a change of the in-memory handle, and a persist call that fails leaves
    the record alone. *)
Hypothesis fetch_keeps_record :
  forall uuid w,
    stored (snd (TangoService_getAreaDescriptionMetadata api uuid w))
    = stored w.
Hypothesis set_keeps_record :
  forall metadata key size value w,
    stored (snd (TangoAreaDescriptionMetadata_set
                   api metadata key size value w))
    = stored w.
Hypothesis failed_persist_keeps_record :
  forall uuid metadata w,
    fst (TangoService_saveAreaDescriptionMetadata api uuid metadata w)
    <> TANGO_SUCCESS ->
    stored (snd (TangoService_saveAreaDescriptionMetadata api uuid metadata w))
    = stored w.

(** With such a service, a [SetAdfMetadataValue] whose persist call fails
    leaves the record as it was before the call. *)
Lemma SetAdfMetadataValue_failed_persist
      (uuid key value : string) (m : machine W)
      (r1 r2 r3 : Z) (out : option TangoAreaDescriptionMetadata)
      (w1 w2 w3 : W) :
  TangoService_getAreaDescriptionMetadata api uuid (service m)
  = (r1, out, w1) ->
  TangoAreaDescriptionMetadata_set
    api (assign Indeterminate out) key (Z.of_nat (String.length value))
    value w1 = (r2, w2) ->
  TangoService_saveAreaDescriptionMetadata
    api uuid (assign Indeterminate out) w2 = (r3, w3) ->
  r3 <> TANGO_SUCCESS ->
  stored (service (final (SetAdfMetadataValue api uuid key value m)))
  = stored (service m).
Proof.
  intros E1 E2 E3 Hfail. rewrite SetAdfMetadataValue_service, E1.
  cbv beta iota zeta. rewrite E2.
  pose proof (fetch_keeps_record uuid (service m)) as H1.
  pose proof (set_keeps_record (assign Indeterminate out) key
                (Z.of_nat (String.length value)) value w1) as H2.
  pose proof (failed_persist_keeps_record
                uuid (assign Indeterminate out) w2) as H3.
  rewrite E1 in H1. rewrite E2 in H2. rewrite E3 in H3 |- *.
  cbn [fst snd] in *. rewrite (H3 Hfail). congruence.
Qed.

End StoreOfRecord.

(** C2, at a service that rejects every request.  [SetAdfMetadataValue]
    makes all three calls whatever their return codes: after the fetch of
    the handle has failed it calls [TangoAreaDescriptionMetadata_set] on
    the unset handle, and after that has failed it calls
    [TangoService_saveAreaDescriptionMetadata] with the same handle. *)
Theorem SetAdfMetadataValue_runs_every_phase
        (uuid key value : string) (m : machine W) :
  calls (trace (SetAdfMetadataValue api uuid key value m))
  = (let metadata :=
       assign Indeterminate
         (snd (fst (TangoService_getAreaDescriptionMetadata
                      api uuid (service m)))) in
     [getAreaDescriptionMetadata uuid;
      Metadata_set metadata key (Z.of_nat (String.length value)) value;
      saveAreaDescriptionMetadata uuid metadata])
  /\ SetAdfMetadataValue (Scripted.api Scripted.rejecting) "u1" "name" "den"
                         Scripted.fresh
     = Returns tt Scripted.fresh
               [Service (getAreaDescriptionMetadata "u1");
                LOGE (Some TANGO_ERROR);
                Service (Metadata_set Indeterminate "name" 3 "den");
                LOGE (Some TANGO_ERROR);
                Service (saveAreaDescriptionMetadata "u1" Indeterminate);
                LOGE (Some TANGO_ERROR)].
Proof. split; [apply SetAdfMetadataValue_calls|reflexivity]. Qed.

(** C3, at a service that rejects every request and at one that knows
    the area description but not the key.  [GetAdfMetadataValue] reads
    the key whatever the fetch of the handle returned, and it has no
    failure result: with the output pointer left unset it builds a string
    from an indeterminate pointer. *)
Theorem GetAdfMetadataValue_reads_key_regardless
        (uuid key : string) (m : machine W) :
  calls (trace (GetAdfMetadataValue api uuid key m))
  = [getAreaDescriptionMetadata uuid;
     Metadata_get
       (assign Indeterminate
          (snd (fst (TangoService_getAreaDescriptionMetadata
                       api uuid (service m))))) key]
  /\ GetAdfMetadataValue (Scripted.api Scripted.rejecting) "u1" "name"
                         Scripted.fresh
     = Undefined Scripted.fresh
                 [Service (getAreaDescriptionMetadata "u1");
                  LOGE (Some TANGO_ERROR);
                  Service (Metadata_get Indeterminate "name");
                  LOGE (Some TANGO_ERROR)]
  /\ GetAdfMetadataValue (Scripted.api Scripted.missing_key) "u1" "name"
                         Scripted.fresh
     = Undefined Scripted.fresh
                 [Service (getAreaDescriptionMetadata "u1");
                  Service (Metadata_get (Holds 1) "name");
                  LOGE (Some TANGO_ERROR)].
Proof.
  split; [apply GetAdfMetadataValue_calls|split; reflexivity].
Qed.

Lemma GetAllAdfUuids_run (m : machine W) :
  GetAllAdfUuids api m
  = let '(tango_config_, w0) := TangoService_getConfig api (service m) in
    let '(r, out, w1) := TangoService_getAreaDescriptionUUIDList api w0 in
    let tr :=
      [Service getConfig]
        ++ match tango_config_ with None => [LOGE None] | Some _ => [] end
        ++ [Service getAreaDescriptionUUIDList]
        ++ (if r =? TANGO_SUCCESS then [] else [LOGE (Some r)]) in
    match out with
    | Some (Cstr s) => Returns s {| app := app m; service := w1 |} tr
    | Some nullptr | None => Undefined {| app := app m; service := w1 |} tr
    end.
Proof.
  unfold GetAllAdfUuids, bind, tango. cbn [service app].
  destruct (TangoService_getConfig api (service m)) as [cfg w0].
  assert (forall m' : machine W,
             match cfg with
             | Some _ => ret tt
             | None => emit (LOGE None)
             end m'
             = Returns tt m' match cfg with
                             | None => [LOGE None]
                             | Some _ => []
                             end) as -> by (intros m'; destruct cfg; reflexivity).
  cbn [service app].
  destruct (TangoService_getAreaDescriptionUUIDList api w0) as [[r out] w1].
  rewrite log_unless_success_run.
  destruct out as [[|s]|]; cbn; rewrite ?app_nil_r; reflexivity.
Qed.

(** C9, at a service that rejects every request.  [GetAllAdfUuids]
    builds a [std::string] from the null pointer that the failed list
    call left in [uuid_list], and [GetAdfMetadataValue] builds one from
    the pointer that the failed reads never set: neither returns.  The
    same holds for [GetAllAdfUuids] at any service whose list call leaves
    the pointer null.  The sibling [GetAdfUuids] tests the pointer and
    returns. *)
Theorem GetAllAdfUuids_null_list (m : machine W) :
  GetAllAdfUuids (Scripted.api Scripted.rejecting) Scripted.fresh
  = Undefined Scripted.fresh
              [Service getConfig; LOGE None;
               Service getAreaDescriptionUUIDList; LOGE (Some TANGO_ERROR)]
  /\ GetAdfMetadataValue (Scripted.api Scripted.rejecting) "u1" "name"
                         Scripted.fresh
     = Undefined Scripted.fresh
                 [Service (getAreaDescriptionMetadata "u1");
                  LOGE (Some TANGO_ERROR);
                  Service (Metadata_get Indeterminate "name");
                  LOGE (Some TANGO_ERROR)]
  /\ GetAdfUuids (Scripted.api Scripted.rejecting) [] Scripted.fresh
     = Returns [] Scripted.fresh
               [Service getAreaDescriptionUUIDList; LOGE (Some TANGO_ERROR)]
  /\ match snd (fst (TangoService_getAreaDescriptionUUIDList
                       api (snd (TangoService_getConfig api (service m)))))
     with
     | Some (Cstr s) => exists m' tr, GetAllAdfUuids api m = Returns s m' tr
     | Some nullptr | None =>
         exists m' tr, GetAllAdfUuids api m = Undefined m' tr
     end.
Proof.
  repeat split. rewrite GetAllAdfUuids_run.
  destruct (TangoService_getConfig api (service m)) as [cfg w0].
  cbn [fst snd].
  destruct (TangoService_getAreaDescriptionUUIDList api w0) as [[r out] w1].
  cbn [fst snd]. destruct out as [[|s]|]; do 2 eexists; reflexivity.
Qed.

End Metadata.
(** ** More on the listing *)

Lemma split_commas_app (b1 b2 : string) :
  split_commas (b1 ++ String "," b2)%string
  = split_commas b1 ++ split_commas b2.
Proof.
  induction b1 as [|c r IH]; cbn [String.append split_commas].
  - reflexivity.
  - rewrite IH. destruct (Ascii.eqb c ","); [reflexivity|].
    pose proof (split_span_token r) as H.
    destruct (split_commas r) as [|piece pieces]; [|reflexivity].
    destruct (snd (span_token "," r)); discriminate.
Qed.

Lemma tokens_of_blob_app (b1 b2 : string) :
  tokens_of_blob (b1 ++ String "," b2)%string
  = tokens_of_blob b1 ++ tokens_of_blob b2.
Proof. unfold tokens_of_blob. rewrite split_commas_app. apply filter_app. Qed.

Lemma split_commas_token (t : string) :
  has_comma t = false -> split_commas t = [t].
Proof.
  induction t as [|c r IH]; [reflexivity|].
  cbn [has_comma split_commas]. intros H.
  apply orb_false_iff in H as [Hc Hr]. rewrite Hc, (IH Hr). reflexivity.
Qed.

Lemma tokens_of_token (t : string) :
  is_token t = true -> tokens_of_blob t = [t].
Proof.
  unfold is_token, tokens_of_blob. intros H.
  apply andb_prop in H as [Hne Hc]. apply negb_true_iff in Hc.
  rewrite (split_commas_token t Hc). cbn [filter]. rewrite Hne. reflexivity.
Qed.

Lemma tokens_of_join (uuids : list string) :
  Forall (fun u => is_token u = true) uuids ->
  tokens_of_blob (join_commas uuids) = uuids.
Proof.
  induction 1 as [|u rest Hu Hrest IH]; [reflexivity|].
  destruct rest as [|u' rest'].
  - apply tokens_of_token, Hu.
  - change (join_commas (u :: u' :: rest'))
      with (u ++ String "," (join_commas (u' :: rest')))%string.
    rewrite tokens_of_blob_app, IH, (tokens_of_token u Hu). reflexivity.
Qed.

Lemma split_commas_no_comma (blob : string) :
  Forall (fun piece => has_comma piece = false) (split_commas blob).
Proof.
  induction blob as [|c r IH]; cbn [split_commas].
  - repeat constructor.
  - destruct (Ascii.eqb c ",") eqn:E.
    + constructor; [reflexivity|exact IH].
    + destruct (split_commas r) as [|piece pieces].
      * repeat constructor. cbn. rewrite E. reflexivity.
      * inversion IH as [|? ? Hp Hps]; subst.
        constructor; [|exact Hps]. cbn. rewrite E. exact Hp.
Qed.

Lemma tokens_are_tokens (blob : string) :
  Forall (fun t => is_token t = true) (tokens_of_blob blob).
Proof.
  unfold tokens_of_blob.
  pose proof (split_commas_no_comma blob) as H.
  induction H as [|piece pieces Hp Hps IH]; cbn [filter]; [constructor|].
  destruct (nonempty piece) eqn:E; [|exact IH].
  constructor; [|exact IH].
  unfold is_token. rewrite E, Hp. reflexivity.
Qed.

Section ListingMore.

Context {W : Type} (api : Api W).

Lemma GetAdfUuids_run (adf_list : list string) (m : machine W) :
  GetAdfUuids api adf_list m
  = let '(r, out, w) :=
      TangoService_getAreaDescriptionUUIDList api (service m) in
    Returns (parse_uuid_list
               (match out with Some p => p | None => nullptr end) adf_list)
            {| app := app m; service := w |}
            (Service getAreaDescriptionUUIDList
               :: (if r =? TANGO_SUCCESS then [] else [LOGE (Some r)])).
Proof.
  unfold GetAdfUuids, bind, tango.
  destruct (TangoService_getAreaDescriptionUUIDList api (service m))
    as [[r out] w].
  unfold log_unless_success.
  destruct (r =? TANGO_SUCCESS); destruct out; reflexivity.
Qed.

(** X1.  [GetAdfUuids] always returns, keeps the caller's entries in front, and
    every entry it appends is a token: not empty and without a comma. *)
Theorem GetAdfUuids_appends_tokens (adf_list : list string) (m : machine W) :
  exists new m' tr,
    GetAdfUuids api adf_list m = Returns (adf_list ++ new) m' tr /\
    Forall (fun u => is_token u = true) new.
Proof.
  rewrite GetAdfUuids_run.
  destruct (TangoService_getAreaDescriptionUUIDList api (service m))
    as [[r out] w].
  destruct out as [[|blob]|].
  - exists [], {| app := app m; service := w |}. eexists.
    rewrite app_nil_r. split; [reflexivity|constructor].
  - exists (tokens_of_blob blob), {| app := app m; service := w |}.
    eexists. rewrite parse_uuid_list_spec.
    split; [reflexivity|apply tokens_are_tokens].
  - exists [], {| app := app m; service := w |}. eexists.
    rewrite app_nil_r. split; [reflexivity|constructor].
Qed.

(** X2.  A catalogue of tokens that the service hands back joined by commas is
    listed as it is: the same tokens, in the same order, repeated ones
    included. *)
Theorem GetAdfUuids_join (uuids adf_list : list string) (m : machine W)
        (r : Z) (w : W) :
  Forall (fun u => is_token u = true) uuids ->
  TangoService_getAreaDescriptionUUIDList api (service m)
  = (r, Some (Cstr (join_commas uuids)), w) ->
  exists tr,
    GetAdfUuids api adf_list m
    = Returns (adf_list ++ uuids) {| app := app m; service := w |} tr.
Proof.
  intros Hu E. rewrite GetAdfUuids_run, E, parse_uuid_list_spec.
  rewrite (tokens_of_join uuids Hu). eexists. reflexivity.
Qed.


End ListingMore.

(** X3.  The parse of two blobs with a comma between them is the parse of the
    first followed by the parse of the second, so commas in front, at the
    end or in a row add nothing. *)
Theorem parse_uuid_list_app (b1 b2 : string) (adf_list : list string) :
  parse_uuid_list (Cstr (b1 ++ String "," b2)%string) adf_list
  = parse_uuid_list (Cstr b2) (parse_uuid_list (Cstr b1) adf_list).
Proof.
  rewrite !parse_uuid_list_spec, tokens_of_blob_app. apply app_assoc.
Qed.

Lemma GetAdfUuids_join_witness :
  exists tr,
    GetAdfUuids (Scripted.api (Scripted.accepting EmptyString "x,y,x" EmptyString))
                ["z"] Scripted.fresh
    = Returns (["z"] ++ ["x"; "y"; "x"]) Scripted.fresh tr.
Proof.
  apply (GetAdfUuids_join
           (Scripted.api (Scripted.accepting EmptyString "x,y,x" EmptyString))
           ["x"; "y"; "x"] ["z"] Scripted.fresh TANGO_SUCCESS tt).
  - repeat constructor.
  - reflexivity.
Defined.

(** ** Lock order of the member functions *)

Section Locks.

Context {W : Type} (api : Api W) (display : Display).

Lemma lock_free_app (tr1 tr2 : list action) :
  lock_free (tr1 ++ tr2) = lock_free tr1 && lock_free tr2.
Proof. apply forallb_app. Qed.

Lemma lock_free_order (tr : list action) :
  lock_free tr = true ->
  forall held,
    respects lock_order held tr = true /\ fold_left step_locks tr held = held.
Proof.
  induction tr as [|a tr IH]; intros H held; [split; reflexivity|].
  cbn in H. apply andb_prop in H as [Ha Htr].
  specialize (IH Htr held).
  destruct a; try discriminate; cbn; exact IH.
Qed.

Lemma bypasses_ret {A : Type} (a : A) : bypasses_stores (W := W) (ret a).
Proof. intros m. split; reflexivity. Qed.

Lemma bypasses_undefined {A : Type} :
  bypasses_stores (W := W) (A := A) undefined.
Proof. intros m. split; reflexivity. Qed.

Lemma bypasses_emit (a : action) :
  is_lock_action a = false -> bypasses_stores (W := W) (emit a).
Proof. intros H m. cbn. rewrite H. split; reflexivity. Qed.

Lemma bypasses_tango {A : Type} (c : call) (entry : W -> A * W) :
  bypasses_stores (tango c entry).
Proof.
  intros m. unfold tango. destruct (entry (service m)). split; reflexivity.
Qed.

Lemma bypasses_pose_read {A : Type} (f : member) (value : PoseData.t -> A) :
  bypasses_stores (W := W) (pose_call f value id).
Proof. intros [[p e] w]. split; reflexivity. Qed.

Lemma bypasses_bind {A B : Type} (c : M W A) (k : A -> M W B) :
  bypasses_stores c -> (forall a, bypasses_stores (k a)) ->
  bypasses_stores (bind c k).
Proof.
  intros Hc Hk m. unfold bind. destruct (Hc m) as [Hc1 Hc2].
  destruct (c m) as [a m1 tr1|m1 tr1]; cbn [trace final] in *;
    [|split; assumption].
  destruct (Hk a m1) as [Hk1 Hk2].
  destruct (k a m1) as [b m2 tr2|m2 tr2]; cbn [trace final] in *;
    rewrite lock_free_app, Hc1, Hk1; (split; [reflexivity|congruence]).
Qed.

Ltac bypasses_step :=
  match goal with
  | |- bypasses_stores (bind _ _) => apply bypasses_bind; [|intros ?]
  | |- bypasses_stores (let '(_, _) := ?x in _) => destruct x
  | |- bypasses_stores (if ?b then _ else _) => destruct b
  | |- bypasses_stores (match ?x with _ => _ end) => destruct x
  | |- bypasses_stores (emit _) => apply bypasses_emit; reflexivity
  | |- bypasses_stores _ =>
      solve [auto using bypasses_ret, bypasses_undefined, bypasses_tango,
             bypasses_pose_read]
  end.

(** X5.  The operations on area descriptions take no lock and leave the
    members of the application object alone, whatever the service
    answers and however they end. *)
Theorem map_operations_bypass_stores :
  bypasses_stores (SaveAdf api) /\
  (forall uuid key, bypasses_stores (GetAdfMetadataValue api uuid key)) /\
  (forall uuid key value,
      bypasses_stores (SetAdfMetadataValue api uuid key value)) /\
  bypasses_stores (GetAllAdfUuids api) /\
  (forall uuid, bypasses_stores (DeleteAdf api uuid)) /\
  (forall adf_list, bypasses_stores (GetAdfUuids api adf_list)).
Proof.
  split; [|split; [|split; [|split; [|split]]]]; intros;
    unfold SaveAdf, GetAdfMetadataValue, SetAdfMetadataValue, GetAllAdfUuids,
      DeleteAdf, GetAdfUuids, log_unless_success, std_string,
      std_string_of_array;
    repeat bypasses_step.
Qed.

Lemma bypasses_serve {A : Type} (c : M W A) (m : machine W) :
  bypasses_stores c ->
  respects lock_order [] (actions (observe (c m))) = true /\
  locks_after (actions (observe (c m))) = [].
Proof.
  intros H. destruct (H m) as [Hfree _].
  destruct (c m); cbn [observe actions trace] in *;
    apply (lock_free_order _ Hfree []).
Qed.

(** X6.  Every member function takes a lock only while it holds none and
    releases only the lock it holds, so the two mutexes are never held
    together and none is taken twice; when the function returns, no lock
    is held. *)
Theorem member_functions_lock_order (req : request) (m : machine W) :
  respects lock_order [] (actions (serve api display req m)) = true /\
  (returned (serve api display req m) = true ->
   locks_after (actions (serve api display req m)) = []).
Proof.
  destruct map_operations_bypass_stores
    as [Hsave [Hget [Hset [Hall [Hdel Hlist]]]]].
  assert (forall (A : Type) (c : M W A),
             bypasses_stores c ->
             respects lock_order [] (actions (observe (c m))) = true /\
             (returned (observe (c m)) = true ->
              locks_after (actions (observe (c m))) = [])) as Hmap.
  { intros A c H. destruct (bypasses_serve c m H) as [H1 H2].
    split; [exact H1|intros _; exact H2]. }
  destruct req; cbn [serve]; auto;
    try (split; [|intros _]; reflexivity).
  rewrite onTangoEventAvailable_run.
  destruct (is_save_progress event); [|split; reflexivity].
  destruct (progress_of event); split; try reflexivity; discriminate.
Qed.

End Locks.

Lemma member_functions_lock_order_witness :
  locks_after
    (actions (serve (Scripted.api Scripted.rejecting)
                    {| pose_string := fun _ => EmptyString;
                       event_string := fun _ => EmptyString |}
                    (Call_onTangoEventAvailable
                       (Scripted.event TANGO_EVENT_AREA_LEARNING
                                       "AreaDescriptionSaveProgress" "0.5"))
                    Scripted.fresh)) = [].
Proof.
  apply (member_functions_lock_order
           (Scripted.api Scripted.rejecting)
           {| pose_string := fun _ => EmptyString;
              event_string := fun _ => EmptyString |}
           (Call_onTangoEventAvailable
              (Scripted.event TANGO_EVENT_AREA_LEARNING
                              "AreaDescriptionSaveProgress" "0.5"))
           Scripted.fresh).
  vm_compute. reflexivity.
Defined.
(** ** More on metadata *)

Section MetadataMore.

Context {W : Type} (api : Api W).

Lemma logged_app (tr1 tr2 : list action) :
  logged (tr1 ++ tr2) = logged tr1 ++ logged tr2.
Proof.
  induction tr1 as [|a tr1 IH]; [reflexivity|].
  destruct a; cbn; rewrite ?IH; reflexivity.
Qed.

Lemma GetAdfMetadataValue_run (uuid key : string) (m : machine W) :
  GetAdfMetadataValue api uuid key m
  = let '(r1, out1, w1) :=
      TangoService_getAreaDescriptionMetadata api uuid (service m) in
    let metadata := assign Indeterminate out1 in
    let '(r2, out2, w2) :=
      TangoAreaDescriptionMetadata_get api metadata key w1 in
    let tr :=
      [Service (getAreaDescriptionMetadata uuid)]
        ++ (if r1 =? TANGO_SUCCESS then [] else [LOGE (Some r1)])
        ++ [Service (Metadata_get metadata key)]
        ++ (if r2 =? TANGO_SUCCESS then [] else [LOGE (Some r2)]) in
    match out2 with
    | Some (Cstr s) => Returns s {| app := app m; service := w2 |} tr
    | Some nullptr | None => Undefined {| app := app m; service := w2 |} tr
    end.
Proof.
  unfold GetAdfMetadataValue, bind, tango. cbn [service app].
  destruct (TangoService_getAreaDescriptionMetadata api uuid (service m))
    as [[r1 out1] w1].
  rewrite log_unless_success_run. cbn [service app].
  destruct (TangoAreaDescriptionMetadata_get api _ key w1)
    as [[r2 out2] w2].
  rewrite log_unless_success_run.
  destruct out2 as [[|s]|], (r1 =? TANGO_SUCCESS), (r2 =? TANGO_SUCCESS);
    reflexivity.
Qed.

(** X7.  Whenever the read of the key stored a pointer to a string in
    [output], [GetAdfMetadataValue] returns that string, whatever the two
    return codes were: a code that reports failure goes to the error log,
    in call order, and does not change the result. *)
Theorem GetAdfMetadataValue_follows_pointer
        (uuid key : string) (m : machine W) (r1 r2 : Z)
        (out1 : option TangoAreaDescriptionMetadata)
        (w1 w2 : W) (s : string) :
  TangoService_getAreaDescriptionMetadata api uuid (service m)
  = (r1, out1, w1) ->
  TangoAreaDescriptionMetadata_get api (assign Indeterminate out1) key w1
  = (r2, Some (Cstr s), w2) ->
  exists tr,
    GetAdfMetadataValue api uuid key m
    = Returns s {| app := app m; service := w2 |} tr /\
    calls tr
    = [getAreaDescriptionMetadata uuid;
       Metadata_get (assign Indeterminate out1) key] /\
    logged tr = map Some (filter failed [r1; r2]).
Proof.
  intros E1 E2. rewrite GetAdfMetadataValue_run, E1.
  cbv beta iota zeta. rewrite E2. eexists. split; [reflexivity|].
  unfold failed. cbn [filter].
  destruct (r1 =? TANGO_SUCCESS), (r2 =? TANGO_SUCCESS);
    split; reflexivity.
Qed.

Lemma SetAdfMetadataValue_run (uuid key value : string) (m : machine W) :
  SetAdfMetadataValue api uuid key value m
  = let '(r1, out, w1) :=
      TangoService_getAreaDescriptionMetadata api uuid (service m) in
    let metadata := assign Indeterminate out in
    let size := Z.of_nat (String.length value) in
    let '(r2, w2) :=
      TangoAreaDescriptionMetadata_set api metadata key size value w1 in
    let '(r3, w3) :=
      TangoService_saveAreaDescriptionMetadata api uuid metadata w2 in
    Returns tt {| app := app m; service := w3 |}
            ([Service (getAreaDescriptionMetadata uuid)]
               ++ (if r1 =? TANGO_SUCCESS then [] else [LOGE (Some r1)])
               ++ [Service (Metadata_set metadata key size value)]
               ++ (if r2 =? TANGO_SUCCESS then [] else [LOGE (Some r2)])
               ++ [Service (saveAreaDescriptionMetadata uuid metadata)]
               ++ (if r3 =? TANGO_SUCCESS then [] else [LOGE (Some r3)])).
Proof.
  unfold SetAdfMetadataValue, bind, tango. cbn [service app].
  destruct (TangoService_getAreaDescriptionMetadata api uuid (service m))
    as [[r1 out] w1].
  rewrite log_unless_success_run. cbn [service app].
  destruct (TangoAreaDescriptionMetadata_set api _ key _ value w1)
    as [r2 w2].
  rewrite log_unless_success_run. cbn [service app].
  destruct (TangoService_saveAreaDescriptionMetadata api uuid _ w2)
    as [r3 w3].
  rewrite log_unless_success_run.
  destruct (r1 =? TANGO_SUCCESS), (r2 =? TANGO_SUCCESS),
    (r3 =? TANGO_SUCCESS); reflexivity.
Qed.

(** X8.  [SetAdfMetadataValue] always returns, and the caller learns nothing
    from it: the return codes of the calls that failed go to the error
    log, in call order, and nowhere else. *)
Theorem SetAdfMetadataValue_only_logs
        (uuid key value : string) (m : machine W) (r1 r2 r3 : Z)
        (out : option TangoAreaDescriptionMetadata) (w1 w2 w3 : W) :
  TangoService_getAreaDescriptionMetadata api uuid (service m)
  = (r1, out, w1) ->
  TangoAreaDescriptionMetadata_set
    api (assign Indeterminate out) key (Z.of_nat (String.length value))
    value w1 = (r2, w2) ->
  TangoService_saveAreaDescriptionMetadata
    api uuid (assign Indeterminate out) w2 = (r3, w3) ->
  exists tr,
    SetAdfMetadataValue api uuid key value m
    = Returns tt {| app := app m; service := w3 |} tr /\
    logged tr = map Some (filter failed [r1; r2; r3]).
Proof.
  intros E1 E2 E3. rewrite SetAdfMetadataValue_run, E1.
  cbv beta iota zeta. rewrite E2, E3. eexists. split; [reflexivity|].
  unfold failed. cbn [filter].
  destruct (r1 =? TANGO_SUCCESS), (r2 =? TANGO_SUCCESS),
    (r3 =? TANGO_SUCCESS); reflexivity.
Qed.

End MetadataMore.

Lemma GetAdfMetadataValue_follows_pointer_witness :
  exists tr,
    GetAdfMetadataValue (Scripted.api wrote_despite_failure)
                        "u1" "name" Scripted.fresh
    = Returns "den" Scripted.fresh tr /\
    calls tr
    = [getAreaDescriptionMetadata "u1"; Metadata_get Indeterminate "name"] /\
    logged tr = [Some TANGO_ERROR; Some TANGO_ERROR].
Proof.
  exact (GetAdfMetadataValue_follows_pointer
           (Scripted.api wrote_despite_failure)
           "u1" "name" Scripted.fresh TANGO_ERROR TANGO_ERROR
           None tt tt "den" eq_refl eq_refl).
Defined.

Lemma SetAdfMetadataValue_only_logs_witness :
  exists tr,
    SetAdfMetadataValue (Scripted.api Scripted.rejecting)
                        "u1" "name" "den" Scripted.fresh
    = Returns tt Scripted.fresh tr /\
    logged tr
    = map Some (filter failed [TANGO_ERROR; TANGO_ERROR; TANGO_ERROR]).
Proof.
  exact (SetAdfMetadataValue_only_logs
           (Scripted.api Scripted.rejecting)
           "u1" "name" "den" Scripted.fresh
           TANGO_ERROR TANGO_ERROR TANGO_ERROR None tt tt tt
           eq_refl eq_refl eq_refl).
Defined.
(** ** More on progress reports *)

Section RoundingMore.

Lemma rne_ge (n d k : Z) : 0 < d -> k * d <= n -> k <= rne n d.
Proof.
  intros Hd H. unfold rne.
  pose proof (Z.div_mod n d ltac:(lia)) as E.
  pose proof (Z.mod_pos_bound n d Hd) as B.
  assert (k <= n / d) by (apply Z.div_le_lower_bound; lia).
  destruct (2 * (n mod d) <? d); [lia|].
  destruct (d <? 2 * (n mod d)); [lia|].
  destruct (Z.even (n / d)); lia.
Qed.

Lemma flog2_int (n d : Z) :
  0 < n -> 0 < d -> n <= (2 ^ 31 - 1) * d -> flog2 n d <= 31.
Proof.
  intros Hn Hd H. unfold flog2.
  assert (Z.log2 n <= 31 + Z.log2 d) as Hlog.
  { rewrite <- (Z.log2_mul_pow2 d 31) by lia.
    apply Z.log2_le_mono. change (2 ^ 31) with 2147483648 in *. lia. }
  destruct (scale2 n d (Z.log2 n - Z.log2 d)) as [n' d'].
  destruct (n' <? d'); lia.
Qed.

Lemma to_int_between (neg : bool) (m e lo hi : Z) :
  e < 0 -> 0 <= lo -> hi <= INT_MAX ->
  lo * 2 ^ (- e) <= m <= hi * 2 ^ (- e) ->
  exists t,
    to_int (Fin neg m e) = Some (if neg then - t else t) /\ lo <= t <= hi.
Proof.
  intros He Hlo Hhi Hm. unfold to_int.
  destruct (Z.leb_spec 0 e); [lia|].
  assert (0 < 2 ^ (- e)) as Hp by (apply Z.pow_pos_nonneg; lia).
  assert (lo <= m / 2 ^ (- e) <= hi) as Hq.
  { split; [apply Z.div_le_lower_bound; lia|].
    apply Z.div_le_upper_bound; lia. }
  exists (m / 2 ^ (- e)). split; [|exact Hq].
  assert (forall v, - hi <= v <= hi ->
                    (INT_MIN <=? v) && (v <=? INT_MAX) = true) as Hfits.
  { intros v Hv. apply andb_true_intro.
    split; apply Z.leb_le; unfold INT_MIN, INT_MAX in *; lia. }
  destruct neg; rewrite Hfits by lia; reflexivity.
Qed.

(** A positive ratio between two integers that fit an [int] rounds to a
    double whose integer part lies between them. *)
Lemma round_pos_between (neg : bool) (n d lo hi : Z) :
  0 < n -> 0 < d -> 0 <= lo -> hi <= INT_MAX ->
  lo * d <= n <= hi * d ->
  exists t,
    to_int (round_pos neg n d) = Some (if neg then - t else t) /\
    lo <= t <= hi.
Proof.
  intros Hn Hd Hlo Hhi H. unfold round_pos.
  assert (n <= (2 ^ 31 - 1) * d) as Hint.
  { unfold INT_MAX in Hhi. nia. }
  pose proof (flog2_int n d Hn Hd Hint) as Hlog.
  set (ex := Z.max (flog2 n d - 52) (-1074)).
  assert (-1074 <= ex <= -21) as Hex by (unfold ex; lia).
  unfold scale2. destruct (Z.leb_spec 0 ex); [lia|].
  assert (0 < 2 ^ (- ex)) as Hp by (apply Z.pow_pos_nonneg; lia).
  set (m := rne (n * 2 ^ (- ex)) d).
  assert (lo * 2 ^ (- ex) <= m) as Hm0 by (apply rne_ge; nia).
  assert (m <= hi * 2 ^ (- ex)) as Hm1 by (apply rne_le; nia).
  destruct (Z.eqb_spec m 0) as [E|_].
  - exists 0. split; [destruct neg; reflexivity|]. nia.
  - destruct (Z.eqb_spec m (2 ^ 53)) as [E|_].
    + destruct (Z.leb_spec 972 (ex + 1)); [lia|].
      apply to_int_between; [lia|lia|lia|].
      replace (- ex) with (Z.succ (- (ex + 1))) in Hm0, Hm1 by lia.
      rewrite Z.pow_succ_r in Hm0, Hm1 by lia.
      rewrite E in Hm0, Hm1. change (2 ^ 53) with (2 * 2 ^ 52) in Hm0, Hm1.
      lia.
    + destruct (Z.leb_spec 972 ex); [lia|].
      apply to_int_between; lia.
Qed.

(** The exact ratio that [mul] rounds for a product with 100 is the
    hundredfold of the factor, up to a common factor. *)
Lemma hundredfold_scaled (m e : Z) :
  exists c,
    0 < c /\
    fst (scale2 (m * 7036874417766400) 1 (- (e + -46)))
    = c * fst (scale2 (100 * m) 1 (- e)) /\
    snd (scale2 (m * 7036874417766400) 1 (- (e + -46)))
    = c * snd (scale2 (100 * m) 1 (- e)).
Proof.
  unfold scale2.
  change 7036874417766400 with (100 * 2 ^ 46).
  destruct (Z.leb_spec 0 (- e)).
  - destruct (Z.leb_spec 0 (- (e + -46))); [|lia].
    exists (2 ^ 46). cbn [fst snd].
    replace (- (e + -46)) with (46 + - e) by lia.
    rewrite Z.pow_add_r by lia.
    split; [reflexivity|]. split; ring.
  - destruct (Z.leb_spec 0 (- (e + -46))).
    + exists (2 ^ (- (e + -46))). cbn [fst snd].
      assert (0 < 2 ^ (- (e + -46))) by (apply Z.pow_pos_nonneg; lia).
      split; [assumption|]. split; [|ring].
      replace (- - e) with e by lia.
      replace 46 with (e + - (e + -46)) at 1 by lia.
      rewrite Z.pow_add_r by lia. ring.
    + exists 1. cbn [fst snd]. split; [lia|]. split; [|ring].
      replace (- - e) with (46 + - - (e + -46)) by lia.
      rewrite Z.pow_add_r by lia. ring.
Qed.

(** The product of a finite double with 100, converted to [int], is the
    exact hundredfold rounded down or up to a neighbouring integer, with
    the sign of the factor, as long as that fits an [int]. *)
Lemma mul_100_between (neg : bool) (m e : Z) :
  0 <= m ->
  ratio_ceil (hundredfold (Fin neg m e)) <= INT_MAX ->
  exists t,
    to_int (mul (Fin neg m e) (of_int 100))
    = Some (if neg then - t else t) /\
    ratio_floor (hundredfold (Fin neg m e)) <= t
    <= ratio_ceil (hundredfold (Fin neg m e)).
Proof.
  change (of_int 100) with (Fin false 7036874417766400 (-46)).
  unfold ratio_floor, ratio_ceil, hundredfold, mul. intros Hm Hhi.
  destruct (hundredfold_scaled m e) as [c [Hc [Hn Hd]]].
  assert (0 < snd (scale2 (100 * m) 1 (- e))) as Hden.
  { unfold scale2. destruct (Z.leb_spec 0 (- e)); cbn [snd]; [|lia].
    assert (0 < 2 ^ (- e)) by (apply Z.pow_pos_nonneg; lia). lia. }
  assert (0 <= fst (scale2 (100 * m) 1 (- e))) as Hnum.
  { unfold scale2. destruct (0 <=? - e); cbn [fst]; [lia|].
    apply Z.mul_nonneg_nonneg; [lia|]. apply Z.pow_nonneg. lia. }
  destruct (scale2 (100 * m) 1 (- e)) as [n d].
  destruct (scale2 (m * 7036874417766400) 1 (- (e + -46))) as [n' d'].
  cbn [fst snd] in *. subst n' d'. rewrite xorb_false_r.
  pose proof (Z.mul_div_le n d Hden) as Hfloor.
  pose proof (Z.mul_div_le (- n) d Hden) as Hceil.
  pose proof (Z.div_pos n d Hnum Hden) as Hpos.
  unfold round. destruct (Z.eqb_spec (c * n) 0) as [E|Hne].
  - assert (n = 0) as -> by nia.
    exists 0. split; [destruct neg; reflexivity|].
    rewrite Z.div_0_l by lia. cbn. lia.
  - apply round_pos_between; try nia; lia.
Qed.

End RoundingMore.

Lemma atof_not_a_number (s : string) :
  not_a_number s = true -> atof s = zero false.
Proof.
  destruct s as [|c rest]; [reflexivity|].
  destruct c as [b0 b1 b2 b3 b4 b5 b6 b7].
  destruct b0, b1, b2, b3, b4, b5, b6, b7; intros H;
    solve [discriminate H | reflexivity].
Qed.

Section IngestionMore.

Context {W : Type}.

(** X9.  A save-progress event whose value is empty or starts with a
    character that cannot start a number is reported as 0, and the
    callback returns normally. *)
Theorem progress_report_not_a_number (event : TangoEvent) (m : machine W) :
  is_save_progress event = true ->
  not_a_number (event_value event) = true ->
  onTangoEventAvailable event m
  = Returns tt (with_event event m)
            [Lock tango_event_mutex_; Member Event_UpdateTangoEvent;
             GetEnv; CallVoidMethod 0; Unlock tango_event_mutex_].
Proof.
  intros Hsave Hnan. rewrite onTangoEventAvailable_run, Hsave.
  unfold progress_of. rewrite (atof_not_a_number _ Hnan). reflexivity.
Qed.

(** X10.  For a save-progress event whose value reads as a finite double, the
    reported percentage is the exact hundredfold of that double rounded
    down or up to a neighbouring integer, with the sign of the double, as
    long as that fits an [int]; the callback then returns normally. *)
Theorem progress_report_between (event : TangoEvent) (m : machine W)
        (neg : bool) (mant e : Z) :
  is_save_progress event = true ->
  atof (event_value event) = Fin neg mant e ->
  0 <= mant ->
  ratio_ceil (hundredfold (Fin neg mant e)) <= INT_MAX ->
  exists t,
    onTangoEventAvailable event m
    = Returns tt (with_event event m)
              [Lock tango_event_mutex_; Member Event_UpdateTangoEvent;
               GetEnv; CallVoidMethod (if neg then - t else t);
               Unlock tango_event_mutex_] /\
    ratio_floor (hundredfold (Fin neg mant e)) <= t
    <= ratio_ceil (hundredfold (Fin neg mant e)).
Proof.
  intros Hsave Hval Hmant Hfits.
  destruct (mul_100_between neg mant e Hmant Hfits) as [t [Ht Hrange]].
  exists t. split; [|exact Hrange].
  rewrite onTangoEventAvailable_run, Hsave.
  unfold progress_of. rewrite Hval, Ht. reflexivity.
Qed.

End IngestionMore.

Lemma progress_report_not_a_number_witness :
  onTangoEventAvailable
    (Scripted.event TANGO_EVENT_AREA_LEARNING
                    "AreaDescriptionSaveProgress" "half") Scripted.fresh
  = Returns tt
            (with_event (Scripted.event TANGO_EVENT_AREA_LEARNING
                                        "AreaDescriptionSaveProgress" "half")
                        Scripted.fresh)
            [Lock tango_event_mutex_; Member Event_UpdateTangoEvent;
             GetEnv; CallVoidMethod 0; Unlock tango_event_mutex_].
Proof.
  apply (progress_report_not_a_number
           (Scripted.event TANGO_EVENT_AREA_LEARNING
                           "AreaDescriptionSaveProgress" "half")
           Scripted.fresh); reflexivity.
Defined.

Lemma progress_report_between_witness :
  exists t,
    onTangoEventAvailable
      (Scripted.event TANGO_EVENT_AREA_LEARNING
                      "AreaDescriptionSaveProgress" "-0.29") Scripted.fresh
    = Returns tt
              (with_event (Scripted.event TANGO_EVENT_AREA_LEARNING
                                          "AreaDescriptionSaveProgress"
                                          "-0.29")
                          Scripted.fresh)
              [Lock tango_event_mutex_; Member Event_UpdateTangoEvent;
               GetEnv; CallVoidMethod (- t); Unlock tango_event_mutex_] /\
    28 <= t <= 29.
Proof.
  apply (progress_report_between
           (Scripted.event TANGO_EVENT_AREA_LEARNING
                           "AreaDescriptionSaveProgress" "-0.29")
           Scripted.fresh true 5224175567749775 (-54)).
  - reflexivity.
  - vm_compute. reflexivity.
  - lia.
  - vm_compute. discriminate.
Defined.
(** ** Configuration and connection *)

Section SetupFacts.

Context {W : Type} (api : Api W) (capi : ConfigApi W).

Lemma log_failure_run (r : Z) (s : session W) :
  log_failure r s = Done tt s (log_of r).
Proof.
  unfold log_failure, log_of. destruct (r =? TANGO_SUCCESS); reflexivity.
Qed.

Lemma GetTangoServiceVersion_run (s : session W) :
  GetTangoServiceVersion capi s
  = let '(r, out, w) :=
      TangoConfig_getString capi (tango_config_ s)
        "tango_service_library_version" kVersionStringLength
        (service (core s)) in
    let tr :=
      Config (getString (tango_config_ s) "tango_service_library_version"
                        kVersionStringLength) :: log_of r in
    match out with
    | Some v => Done v (at_service s w) tr
    | None => Stuck (at_service s w) tr
    end.
Proof.
  unfold GetTangoServiceVersion, sbind, get_tango_config, config.
  cbn [tango_config_ core].
  destruct (TangoConfig_getString capi (tango_config_ s) _ _ _)
    as [[r out] w].
  rewrite log_failure_run.
  destruct out; cbn; rewrite ?app_nil_r; reflexivity.
Qed.

Lemma load_most_recent_run (ret0 : Z) (s : session W) :
  load_most_recent api capi ret0 s
  = let '(rl, out, w1) :=
      TangoService_getAreaDescriptionUUIDList api (service (core s)) in
    let adf_list :=
      parse_uuid_list (match out with Some p => p | None => nullptr end) [] in
    let listing :=
      Core (Service getAreaDescriptionUUIDList)
        :: map Core (if rl =? TANGO_SUCCESS then [] else [LOGE (Some rl)]) in
    match adf_list with
    | [] => Done ret0 (at_service s w1) listing
    | _ :: _ =>
        let adf_uuid := last adf_list EmptyString in
        let '(r, w2) :=
          TangoConfig_setString capi (tango_config_ s)
            "config_load_area_description_UUID" adf_uuid w1 in
        Done r
             (with_loaded (at_service s w2)
                ("Number of ADFs:" ++ decimal (List.length adf_list)
                   ++ ", Loaded ADF: " ++ adf_uuid)%string)
             (listing
                ++ Config (setString (tango_config_ s)
                             "config_load_area_description_UUID" adf_uuid)
                :: log_of r)
    end.
Proof.
  unfold load_most_recent, sbind, run_core.
  rewrite GetAdfUuids_run.
  destruct (TangoService_getAreaDescriptionUUIDList api (service (core s)))
    as [[rl out] w1].
  cbv beta iota zeta.
  destruct (parse_uuid_list _ []) as [|u rest] eqn:E.
  - cbn. rewrite app_nil_r. reflexivity.
  - unfold set_loaded_adf_string, get_tango_config, config.
    cbn [core service app tango_config_ loaded_adf_string_
         tango_core_version_string_].
    destruct (TangoConfig_setString capi (tango_config_ s) _ _ w1)
      as [r w2].
    rewrite log_failure_run. cbn. rewrite !app_nil_r. reflexivity.
Qed.

(** X12.  When the service hands out no configuration, [TangoSetupConfig]
    returns [TANGO_ERROR] at once: it has stored the null handle, and it
    makes no other call and leaves the two display strings alone. *)
Theorem TangoSetupConfig_without_config
        (is_area_learning_enabled is_loading_adf : bool)
        (s : session W) (w : W) :
  TangoService_getConfig api (service (core s)) = (None, w) ->
  TangoSetupConfig api capi is_area_learning_enabled is_loading_adf s
  = Done TANGO_ERROR (with_config (at_service s w) None)
         [Core (Service getConfig); Core (LOGE None)].
Proof.
  intros E. unfold TangoSetupConfig, sbind, run_core, tango. rewrite E.
  reflexivity.
Qed.

(** X13.  When the learning-mode setting is rejected, [TangoSetupConfig]
    returns the code of that call: no area description is listed or
    loaded, the version is not read, and the two display strings stay as
    they were. *)
Theorem TangoSetupConfig_learning_mode_rejected
        (is_area_learning_enabled is_loading_adf : bool)
        (s : session W) (cfg : TangoConfig) (r : Z) (w0 w1 : W) :
  TangoService_getConfig api (service (core s)) = (Some cfg, w0) ->
  TangoConfig_setBool capi (Some cfg) "config_enable_learning_mode"
                      is_area_learning_enabled w0 = (r, w1) ->
  r <> TANGO_SUCCESS ->
  TangoSetupConfig api capi is_area_learning_enabled is_loading_adf s
  = Done r (with_config (at_service s w1) (Some cfg))
         [Core (Service getConfig);
          Config (setBool (Some cfg) "config_enable_learning_mode"
                          is_area_learning_enabled);
          Core (LOGE (Some r))].
Proof.
  intros E0 E1 Hr. unfold TangoSetupConfig, sbind, run_core, tango, config.
  rewrite E0. cbn [set_tango_config core service app tango_config_
                   loaded_adf_string_ tango_core_version_string_].
  rewrite E1. apply Z.eqb_neq in Hr. rewrite Hr. reflexivity.
Qed.

Lemma config_calls_app (tr1 tr2 : list step) :
  config_calls (tr1 ++ tr2) = config_calls tr1 ++ config_calls tr2.
Proof.
  induction tr1 as [|a tr1 IH]; [reflexivity|].
  destruct a; cbn; rewrite ?IH; reflexivity.
Qed.

Lemma config_calls_core (tr : list action) : config_calls (map Core tr) = [].
Proof. induction tr as [|a tr IH]; [reflexivity|exact IH]. Qed.

Lemma config_calls_log_of (r : Z) : config_calls (log_of r) = [].
Proof. unfold log_of. destruct (r =? TANGO_SUCCESS); reflexivity. Qed.

(** Once the configuration is there and the learning mode is set, the
    rest of [TangoSetupConfig] is the optional load followed by the read
    of the version. *)
Lemma TangoSetupConfig_configured
      (is_area_learning_enabled is_loading_adf : bool)
      (s : session W) (cfg : TangoConfig) (w0 w1 : W) :
  TangoService_getConfig api (service (core s)) = (Some cfg, w0) ->
  TangoConfig_setBool capi (Some cfg) "config_enable_learning_mode"
                      is_area_learning_enabled w0 = (TANGO_SUCCESS, w1) ->
  TangoSetupConfig api capi is_area_learning_enabled is_loading_adf s
  = let s1 := with_config (at_service s w1) (Some cfg) in
    let before :=
      [Core (Service getConfig);
       Config (setBool (Some cfg) "config_enable_learning_mode"
                       is_area_learning_enabled)] in
    match (if is_loading_adf
           then load_most_recent api capi TANGO_SUCCESS s1
           else Done TANGO_SUCCESS s1 []) with
    | Done r s2 tr2 =>
        match GetTangoServiceVersion capi s2 with
        | Done v s3 tr3 => Done r (with_version s3 v) (before ++ tr2 ++ tr3)
        | Stuck s3 tr3 => Stuck s3 (before ++ tr2 ++ tr3)
        end
    | Stuck s2 tr2 => Stuck s2 (before ++ tr2)
    end.
Proof.
  intros E0 E1. unfold TangoSetupConfig, sbind, run_core, tango, config.
  rewrite E0. cbn [set_tango_config core service app tango_config_
                   loaded_adf_string_ tango_core_version_string_].
  rewrite E1. rewrite Z.eqb_refl. cbn [negb].
  change {| core := {| app := app (core s); service := w1 |};
            tango_config_ := Some cfg;
            loaded_adf_string_ := loaded_adf_string_ s;
            tango_core_version_string_ := tango_core_version_string_ s |}
    with (with_config (at_service s w1) (Some cfg)).
  destruct is_loading_adf.
  - match goal with
    | |- context [load_most_recent ?a ?b ?c ?d] =>
        destruct (load_most_recent a b c d) as [r s2 tr2|s2 tr2]
    end; [|reflexivity].
    destruct (GetTangoServiceVersion capi s2) as [v s3 tr3|s3 tr3];
      cbn; rewrite ?app_nil_r; reflexivity.
  - unfold sret.
    match goal with
    | |- context [GetTangoServiceVersion ?a ?b] =>
        destruct (GetTangoServiceVersion a b) as [v s3 tr3|s3 tr3]
    end; cbn; rewrite ?app_nil_r; reflexivity.
Qed.


(** X15.  Once the configuration handle is there and the learning mode
    is set: with loading not asked for, or with a listing that yields no
    UUID, [TangoSetupConfig] requests no load and leaves
    [loaded_adf_string_] as it was; if it returns, it returns
    [TANGO_SUCCESS]. *)
Theorem TangoSetupConfig_nothing_to_load
        (is_area_learning_enabled is_loading_adf : bool) (s : session W)
        (cfg : TangoConfig) (w0 w1 : W) :
  TangoService_getConfig api (service (core s)) = (Some cfg, w0) ->
  TangoConfig_setBool capi (Some cfg) "config_enable_learning_mode"
                      is_area_learning_enabled w0 = (TANGO_SUCCESS, w1) ->
  is_loading_adf = false \/
  parse_uuid_list
    (match snd (fst (TangoService_getAreaDescriptionUUIDList api w1)) with
     | Some p => p
     | None => nullptr
     end) [] = [] ->
  filter is_setString
    (config_calls
       (steps (TangoSetupConfig api capi is_area_learning_enabled
                                is_loading_adf s))) = [] /\
  loaded_adf_string_
    (reached (TangoSetupConfig api capi is_area_learning_enabled
                               is_loading_adf s))
  = loaded_adf_string_ s /\
  (forall r' s' tr,
      TangoSetupConfig api capi is_area_learning_enabled is_loading_adf s
      = Done r' s' tr -> r' = TANGO_SUCCESS).
Proof.
  intros E0 E1 Hnone.
  rewrite (TangoSetupConfig_configured _ is_loading_adf s cfg w0 w1 E0 E1).
  cbv beta iota zeta.
  assert ((if is_loading_adf
           then load_most_recent api capi TANGO_SUCCESS
                                 (with_config (at_service s w1) (Some cfg))
           else Done TANGO_SUCCESS (with_config (at_service s w1) (Some cfg))
                     [])
          = Done TANGO_SUCCESS
                 (with_config
                    (at_service s
                       (if is_loading_adf
                        then snd (TangoService_getAreaDescriptionUUIDList
                                    api w1)
                        else w1))
                    (Some cfg))
                 (if is_loading_adf
                  then Core (Service getAreaDescriptionUUIDList)
                         :: map Core
                              (if fst (fst (TangoService_getAreaDescriptionUUIDList
                                              api w1)) =? TANGO_SUCCESS
                               then [] else
                                 [LOGE (Some (fst (fst (TangoService_getAreaDescriptionUUIDList
                                                          api w1))))])
                  else [])) as ->.
  { destruct is_loading_adf; [|reflexivity].
    destruct Hnone as [Hoff|Hempty]; [discriminate|].
    rewrite load_most_recent_run.
    cbn [with_config at_service core service app tango_config_].
    destruct (TangoService_getAreaDescriptionUUIDList api w1)
      as [[rl out] w2].
    cbn [fst snd] in *. cbv beta iota zeta. rewrite Hempty. reflexivity. }
  rewrite GetTangoServiceVersion_run.
  cbn [with_config at_service core service app tango_config_
       loaded_adf_string_].
  match goal with
  | |- context [TangoConfig_getString ?a ?b ?c ?d ?e] =>
      destruct (TangoConfig_getString a b c d e) as [[rv out] w4]
  end.
  destruct out as [v|]; cbn [steps reached];
    (split; [|split; [reflexivity|]]).
  - destruct is_loading_adf;
      repeat (rewrite ?config_calls_app, ?config_calls_core,
                ?config_calls_log_of; cbn [config_calls app]);
      reflexivity.
  - intros r' s' tr H. injection H as <- _ _. reflexivity.
  - destruct is_loading_adf;
      repeat (rewrite ?config_calls_app, ?config_calls_core,
                ?config_calls_log_of; cbn [config_calls app]);
      reflexivity.
  - intros r' s' tr H. discriminate.
Qed.

(** X16.  Once the configuration handle is there and the learning mode
    is set, without loading, the version string becomes what
    [TangoConfig_getString] wrote into the buffer, whatever code that
    call returned, and [TangoSetupConfig] returns [TANGO_SUCCESS]. *)
Theorem TangoSetupConfig_version
        (is_area_learning_enabled : bool) (s : session W)
        (cfg : TangoConfig) (rv : Z) (version : string) (w0 w1 w2 : W) :
  TangoService_getConfig api (service (core s)) = (Some cfg, w0) ->
  TangoConfig_setBool capi (Some cfg) "config_enable_learning_mode"
                      is_area_learning_enabled w0 = (TANGO_SUCCESS, w1) ->
  TangoConfig_getString capi (Some cfg) "tango_service_library_version"
                        kVersionStringLength w1 = (rv, Some version, w2) ->
  TangoSetupConfig api capi is_area_learning_enabled false s
  = Done TANGO_SUCCESS
         (with_version (with_config (at_service s w2) (Some cfg)) version)
         ([Core (Service getConfig);
           Config (setBool (Some cfg) "config_enable_learning_mode"
                           is_area_learning_enabled);
           Config (getString (Some cfg) "tango_service_library_version"
                             kVersionStringLength)]
            ++ log_of rv).
Proof.
  intros E0 E1 Ev.
  rewrite (TangoSetupConfig_configured _ false s cfg w0 w1 E0 E1).
  cbv beta iota zeta. rewrite GetTangoServiceVersion_run.
  cbn [with_config at_service core service app tango_config_].
  rewrite Ev. reflexivity.
Qed.

(** X17.  [TangoConnectCallbacks] asks for poses of exactly the three frame
    pairs, attaches the event callback only after the pose callback was
    accepted, and returns [TANGO_SUCCESS] only when both were accepted;
    otherwise it returns the code of the call that failed. *)
Theorem TangoConnectCallbacks_result (s : session W) (r1 : Z) (w1 : W) :
  TangoService_connectOnPoseAvailable capi 3 pairs (service (core s))
  = (r1, w1) ->
  (r1 <> TANGO_SUCCESS ->
   TangoConnectCallbacks capi s
   = Done r1 (at_service s w1)
          [Config (connectOnPoseAvailable 3 pairs); Core (LOGE (Some r1))]) /\
  (r1 = TANGO_SUCCESS ->
   forall r2 w2,
     TangoService_connectOnTangoEvent capi w1 = (r2, w2) ->
     TangoConnectCallbacks capi s
     = Done r2 (at_service s w2)
            (Config (connectOnPoseAvailable 3 pairs)
               :: Config connectOnTangoEvent :: log_of r2)).
Proof.
  intros E1. unfold TangoConnectCallbacks, sbind, config. rewrite E1. split.
  - intros Hr. apply Z.eqb_neq in Hr. rewrite Hr. reflexivity.
  - intros -> r2 w2 E2. cbn [Z.eqb TANGO_SUCCESS negb core service app].
    rewrite E2. unfold log_of.
    destruct (r2 =? TANGO_SUCCESS); reflexivity.
Qed.

(** X18.  [TangoDisconnect] frees the configuration handle it holds and then
    holds the null handle, so a second [TangoDisconnect] frees only the
    null handle: no handle is freed twice. *)
Theorem TangoDisconnect_frees_once (s : session W) :
  exists s1 tr1 s2 tr2,
    TangoDisconnect capi s = Done tt s1 tr1 /\
    TangoDisconnect capi s1 = Done tt s2 tr2 /\
    tr1 = [Config (free (tango_config_ s)); Config disconnect] /\
    tango_config_ s1 = None /\
    tr2 = [Config (free None); Config disconnect].
Proof.
  unfold TangoDisconnect, sbind, get_tango_config, config, set_tango_config.
  cbn. do 4 eexists. repeat split.
Qed.

End SetupFacts.
Lemma TangoSetupConfig_without_config_witness :
  TangoSetupConfig (Scripted.api Scripted.rejecting)
                   (ScriptedConfig.capi (ScriptedConfig.accepting "1.0"))
                   true true ScriptedConfig.fresh
  = Done TANGO_ERROR (with_config (at_service ScriptedConfig.fresh tt) None)
         [Core (Service getConfig); Core (LOGE None)].
Proof.
  exact (TangoSetupConfig_without_config
           (Scripted.api Scripted.rejecting)
           (ScriptedConfig.capi (ScriptedConfig.accepting "1.0"))
           true true ScriptedConfig.fresh tt eq_refl).
Defined.

Lemma TangoSetupConfig_learning_mode_rejected_witness :
  TangoSetupConfig
    (Scripted.api (Scripted.accepting EmptyString "a,b" EmptyString))
    (ScriptedConfig.capi ScriptedConfig.rejecting)
    true true ScriptedConfig.fresh
  = Done TANGO_ERROR
         (with_config (at_service ScriptedConfig.fresh tt) (Some 1))
         [Core (Service getConfig);
          Config (setBool (Some 1) "config_enable_learning_mode" true);
          Core (LOGE (Some TANGO_ERROR))].
Proof.
  apply (TangoSetupConfig_learning_mode_rejected
           (Scripted.api (Scripted.accepting EmptyString "a,b" EmptyString))
           (ScriptedConfig.capi ScriptedConfig.rejecting)
           true true ScriptedConfig.fresh 1 TANGO_ERROR tt tt eq_refl eq_refl).
  discriminate.
Defined.


Lemma TangoSetupConfig_nothing_to_load_witness :
  loaded_adf_string_
    (reached (TangoSetupConfig
                (Scripted.api
                   (Scripted.accepting EmptyString ",," EmptyString))
                (ScriptedConfig.capi (ScriptedConfig.accepting "1.0"))
                false true ScriptedConfig.fresh))
  = "Loaded ADF: N/A".
Proof.
  destruct (TangoSetupConfig_nothing_to_load
              (Scripted.api (Scripted.accepting EmptyString ",," EmptyString))
              (ScriptedConfig.capi (ScriptedConfig.accepting "1.0"))
              false true ScriptedConfig.fresh 1 tt tt eq_refl eq_refl
              (or_intror eq_refl)) as [_ [Hloaded _]].
  exact Hloaded.
Defined.

Lemma TangoSetupConfig_version_witness :
  TangoSetupConfig
    (Scripted.api (Scripted.accepting EmptyString EmptyString EmptyString))
    (ScriptedConfig.capi version_despite_failure)
    true false ScriptedConfig.fresh
  = Done TANGO_SUCCESS
         (with_version
            (with_config (at_service ScriptedConfig.fresh tt) (Some 1))
            "1.0")
         ([Core (Service getConfig);
           Config (setBool (Some 1) "config_enable_learning_mode" true);
           Config (getString (Some 1) "tango_service_library_version"
                             kVersionStringLength)]
            ++ log_of TANGO_ERROR).
Proof.
  exact (TangoSetupConfig_version
           (Scripted.api
              (Scripted.accepting EmptyString EmptyString EmptyString))
           (ScriptedConfig.capi version_despite_failure)
           true ScriptedConfig.fresh 1 TANGO_ERROR "1.0" tt tt tt
           eq_refl eq_refl eq_refl).
Defined.

Lemma TangoConnectCallbacks_result_witness :
  TangoConnectCallbacks (ScriptedConfig.capi ScriptedConfig.rejecting)
                        ScriptedConfig.fresh
  = Done TANGO_ERROR (at_service ScriptedConfig.fresh tt)
         [Config (connectOnPoseAvailable 3 pairs);
          Core (LOGE (Some TANGO_ERROR))] /\
  TangoConnectCallbacks (ScriptedConfig.capi (ScriptedConfig.accepting "1.0"))
                        ScriptedConfig.fresh
  = Done TANGO_SUCCESS (at_service ScriptedConfig.fresh tt)
         (Config (connectOnPoseAvailable 3 pairs)
            :: Config connectOnTangoEvent :: log_of TANGO_SUCCESS).
Proof.
  split.
  - apply (proj1 (TangoConnectCallbacks_result
                    (ScriptedConfig.capi ScriptedConfig.rejecting)
                    ScriptedConfig.fresh TANGO_ERROR tt eq_refl)).
    discriminate.
  - exact (proj2 (TangoConnectCallbacks_result
                    (ScriptedConfig.capi (ScriptedConfig.accepting "1.0"))
                    ScriptedConfig.fresh TANGO_SUCCESS tt eq_refl)
             eq_refl TANGO_SUCCESS tt eq_refl).
Defined.
